(** * gpt_decorators: the signature analyzer and the call wrapper

    A shallow embedding of [src/gpt_decorators/gpt_callable_func.py] and the
    properties of it that the specification states.

    The Python module inspects a function's signature, hands one field
    definition per analysed parameter to pydantic, patches the JSON schema
    pydantic returns, and wraps the function in an object that forwards calls
    and carries the schema as [gpt_func]. *)

From stdpp Require Import base gmap sets list strings pretty.
From ITree Require Import ITree ITreeFacts.
From Stdlib Require Import Ascii.

Local Open Scope string_scope.
Set Warnings "-register-all,-clear-no-such-hyp".
Set Default Proof Using "Type".

(** ** Python values *)

(** The Python objects that occur as parameter defaults, as annotation
    metadata and inside the produced schema.  [PySet] is a [set] of strings
    (the only sets the module handles), [PyDict] a [dict] with string keys in
    insertion order, [PyOpaque] any other object, named by its [repr]. *)
Inductive pyval : Type :=
| PyNone
| PyEllipsis
| PyBool (b : bool)
| PyInt (z : Z)
| PyStr (s : string)
| PyTuple (items : list pyval)
| PyList (items : list pyval)
| PyDict (entries : list (string * pyval))
| PySet (members : gset string)
| PyOpaque (repr : string).

(** What [json.dumps] accepts: [None], booleans, numbers, strings, lists,
    tuples and string-keyed dicts of such values.  A [set] is rejected with
    [TypeError: Object of type set is not JSON serializable]. *)
Fixpoint json_serializable (v : pyval) : bool :=
  match v with
  | PyNone | PyBool _ | PyInt _ | PyStr _ => true
  | PyTuple items | PyList items => forallb json_serializable items
  | PyDict entries => forallb (fun kv => json_serializable (snd kv)) entries
  | PyEllipsis | PySet _ | PyOpaque _ => false
  end.

(** *** Dictionaries

    A [dict] keeps its keys unique and in insertion order; assignment to an
    existing key replaces the value in place. *)
Section Dict.
Context {V : Type}.

Fixpoint dict_get (d : list (string * V)) (k : string) : option V :=
  match d with
  | [] => None
  | (k', v) :: rest => if decide (k' = k) then Some v else dict_get rest k
  end.

(** [d[k] = v] *)
Fixpoint dict_set (d : list (string * V)) (k : string) (v : V) : list (string * V) :=
  match d with
  | [] => [(k, v)]
  | (k', v') :: rest =>
      if decide (k' = k) then (k, v) :: rest else (k', v') :: dict_set rest k v
  end.

(** [d.pop(k, None)], keeping only the dict *)
Fixpoint dict_pop (d : list (string * V)) (k : string) : list (string * V) :=
  match d with
  | [] => []
  | (k', v') :: rest =>
      if decide (k' = k) then dict_pop rest k else (k', v') :: dict_pop rest k
  end.

Definition dict_keys (d : list (string * V)) : list string := fst <$> d.
End Dict.

(** ** Signatures *)

(** [inspect.Parameter.kind] *)
Inductive param_kind : Type :=
| POSITIONAL_ONLY
| POSITIONAL_OR_KEYWORD
| VAR_POSITIONAL
| KEYWORD_ONLY
| VAR_KEYWORD.

(** The objects found in [inspect.Parameter.annotation], by what the analyzer
    can tell apart:
    - [AnnEmpty] is [inspect.Parameter.empty], the marker of a parameter
      without annotation; it is itself a plain class;
    - [AnnClass] is a class whose type is exactly [type] ([int], [str], a user
      class without metaclass);
    - [AnnEnum] is an [Enum] class (an instance of [EnumMeta]) with its member
      names in definition order, which are pairwise distinct;
    - [AnnMetaClass] is a class with any other metaclass (an [ABC], a pydantic
      model);
    - [AnnNone] is the object [None];
    - [AnnLiteral] is [Literal[...]];
    - [AnnFieldInfo] is a pydantic [FieldInfo] with its [default],
      [description] and [annotation] attributes;
    - [AnnAnnotated base metadata] is [Annotated[base, *metadata]], for which
      [get_args] returns [(base, *metadata)];
    - [AnnOther] is any other object (a string annotation, a generic alias
      such as [list[int]], ...). *)
Inductive annotation : Type :=
| AnnEmpty
| AnnClass (name : string)
| AnnEnum (name : string) (members : list string)
| AnnMetaClass (name : string)
| AnnNone
| AnnLiteral (choices : list pyval)
| AnnFieldInfo (default : pyval) (description : pyval) (ann : annotation)
| AnnAnnotated (base : annotation) (metadata : list pyval)
| AnnOther (repr : string).

(** [isinstance(a, type)]: [a] is a class. *)
Definition is_class (a : annotation) : bool :=
  match a with
  | AnnEmpty | AnnClass _ | AnnEnum _ _ | AnnMetaClass _ => true
  | _ => false
  end.

(** [type(a) is type] *)
Definition type_is_type (a : annotation) : bool :=
  match a with
  | AnnEmpty | AnnClass _ => true
  | _ => false
  end.

(** [inspect.Parameter]; [p_default = None] stands for
    [inspect.Parameter.empty]. *)
Record PyParameter : Type := mkParameter {
  p_kind : param_kind;
  p_default : option pyval;
  p_annotation : annotation
}.

(** [inspect.signature(func).parameters]: an ordered mapping. *)
Abbreviation signature := (list (string * PyParameter)).

(** [Field(default=..., description=...)] *)
Record FieldDef : Type := Field {
  f_default : pyval;
  f_description : pyval
}.

(** The local [properties] dict: name to (emitted type, field). *)
Abbreviation properties_t := (list (string * (annotation * FieldDef))).

(** ** Exceptions and the analyzer's monad *)

(** Exceptions are told apart by class; [PydanticError] stands for every
    exception class of the schema library. *)
Inductive exn : Type :=
| ValueError
| AttributeError
| TypeError
| IndexError
| PydanticError.

Inductive result (A : Type) : Type :=
| Ok (a : A)
| Raise (e : exn).
Arguments Ok {A} a.
Arguments Raise {A} e.

Definition is_ok {A} (r : result A) : bool :=
  match r with Ok _ => true | Raise _ => false end.

(** [required_params = include] binds a second name to the caller's object,
    so [required_params.add] updates the caller's set.  The store is the
    content of that one object: [None] when [include] is [None], else the
    members of the set.  A computation returns the store it leaves behind
    also when it raises. *)
Definition store : Type := option (gset string).

Definition M (A : Type) : Type := store -> store * result A.

Definition ret {A} (a : A) : M A := fun st => (st, Ok a).
Definition raise {A} (e : exn) : M A := fun st => (st, Raise e).
Definition bind {A B} (m : M A) (k : A -> M B) : M B :=
  fun st =>
    match m st with
    | (st', Ok a) => k a st'
    | (st', Raise e) => (st', Raise e)
    end.
Definition lift {A} (r : result A) : M A := fun st => (st, r).
Definition get : M store := fun st => (st, Ok st).

Declare Scope py_scope.
Delimit Scope py_scope with py.
Notation "'let*' x := m 'in' k" := (bind m (fun x => k))
  (at level 10, x pattern, m at level 100, k at level 200) : py_scope.
Notation "m ';;;' k" := (bind m (fun _ => k))
  (at level 100, k at level 200, right associativity) : py_scope.
Local Open Scope py_scope.

(** Truth value of an optional set: [None] and the empty set are falsy. *)
Definition truthy (s : option (gset string)) : bool :=
  match s with
  | Some s => bool_decide (s ≠ ∅)
  | None => false
  end.

(** [x not in s]; a membership test against [None] raises [TypeError]. *)
Definition not_in (x : string) (s : option (gset string)) : M bool :=
  match s with
  | Some s => ret (bool_decide (x ∉ s))
  | None => raise TypeError
  end.

(** [a and b] on booleans, evaluating [b] only when [a] is true. *)
Definition and_then (a b : M bool) : M bool :=
  let* x := a in if x : bool then b else ret false.

(** [required_params.add(x)] *)
Definition set_add (x : string) : M unit :=
  fun st =>
    match st with
    | Some s => (Some ({[x]} ∪ s), Ok tt)
    | None => (None, Raise AttributeError)
    end.

(** ** The signature analyzer *)

Section Analyzer.

(** The builtin [str], applied to annotation metadata. *)
Variable py_str : pyval -> string.

(** pydantic's rendering of one field as a JSON schema; it raises for a
    name or a type it does not support. *)
Variable field_json_schema : string -> annotation -> FieldDef -> result pyval.

(** Line 27: the implicit receiver of a method. *)
Definition is_receiver (idx : nat) (p_name : string) (p : PyParameter) : bool :=
  (idx =? 0)%nat && bool_decide (p_name ∈ ["self"; "cls"]) && type_is_type (p_annotation p).

(** Line 30 *)
Definition is_var (p : PyParameter) : bool :=
  match p_kind p with
  | VAR_POSITIONAL | VAR_KEYWORD => true
  | _ => false
  end.

Definition has_default (p : PyParameter) : bool :=
  match p_default p with Some _ => true | None => false end.

(** Lines 34-35 *)
Definition mark_required (p_name : string) (p : PyParameter) (exclude : option (gset string)) : M unit :=
  let* c :=
    and_then (ret (negb (has_default p)))
      (and_then (let* required_params := get in not_in p_name required_params)
                (not_in p_name exclude)) in
  if c : bool then set_add p_name else ret tt.

(** Lines 45-49: [annotation, description = get_args(annotation)] needs
    exactly one metadata value; a tuple as metadata gives its first element
    as the description. *)
Definition unpack_annotated (a : annotation) : result (annotation * pyval) :=
  match a with
  | AnnAnnotated base [PyTuple []] => Raise IndexError
  | AnnAnnotated base [PyTuple (first :: _)] => Ok (base, PyStr (py_str first))
  | AnnAnnotated base [description] => Ok (base, description)
  | AnnAnnotated base _ => Raise ValueError
  | _ => Ok (a, PyNone)
  end.

(** Lines 51-52 *)
Definition enum_to_literal (a : annotation) : annotation :=
  match a with
  | AnnEnum _ members => AnnLiteral (PyStr <$> members)
  | _ => a
  end.

(** Lines 37-56: the value stored under [properties[p_name]]. *)
Definition emit (p : PyParameter) : result (annotation * FieldDef) :=
  match p_annotation p with
  | AnnFieldInfo default description ann => Ok (ann, Field default description)
  | a =>
      match unpack_annotated a with
      | Ok (a', description) =>
          Ok (enum_to_literal a',
              Field (default PyEllipsis (p_default p)) description)
      | Raise e => Raise e
      end
  end.

(** Lines 25-56: the loop, from parameter number [idx] on. *)
Fixpoint analyze (idx : nat) (parameters : signature) (exclude : option (gset string))
    (properties : properties_t) : M properties_t :=
  match parameters with
  | [] => ret properties
  | (p_name, p) :: rest =>
      if is_receiver idx p_name p then analyze (S idx) rest exclude properties
      else if is_var p then analyze (S idx) rest exclude properties
      else
        mark_required p_name p exclude;;;
        let* entry := lift (emit p) in
        analyze (S idx) rest exclude (dict_set properties p_name entry)
  end.

(** *** pydantic

    [create_model(__model_name="_", **properties).model_json_schema(mode="serialization")]
    as pydantic 2 documents it: an object schema with one property per
    field in field order, the list of fields without default under
    [required] when there is one, the model name as [title]; keys are
    sorted.  ([$defs] only occurs for nested models and enum classes.)  A
    field is required when its default is [...] or pydantic's own
    [PydanticUndefined]. *)
Definition field_required (f : FieldDef) : bool :=
  match f_default f with
  | PyEllipsis | PyOpaque "PydanticUndefined" => true
  | _ => false
  end.

Fixpoint render_fields (properties : properties_t) : result (list (string * pyval)) :=
  match properties with
  | [] => Ok []
  | (name, (a, f)) :: rest =>
      match field_json_schema name a f with
      | Ok js =>
          match render_fields rest with
          | Ok rest' => Ok ((name, js) :: rest')
          | Raise e => Raise e
          end
      | Raise e => Raise e
      end
  end.

Definition model_json_schema (properties : properties_t) : result (list (string * pyval)) :=
  match render_fields properties with
  | Ok props =>
      let required := filter (fun nf => field_required (snd (snd nf)) = true) properties in
      Ok (([("properties", PyDict props)]
             ++ (if required is [] then [] else [("required", PyList (PyStr ∘ fst <$> required))])
             ++ [("title", PyStr "_"); ("type", PyStr "object")])%list)
  | Raise e => Raise e
  end.

(** The value of the name [required_params] after the loop. *)
Definition store_value (st : store) : pyval :=
  match st with
  | Some s => PySet s
  | None => PyNone
  end.

(** Lines 11-61.  The [include] argument is the initial store; the store
    returned is what the caller's [include] object holds afterwards. *)
Definition _convert_params_to_schema (parameters : signature)
    (include exclude : option (gset string)) : store * result (list (string * pyval)) :=
  (if truthy include && truthy exclude
        && bool_decide (default ∅ include ∩ default ∅ exclude ≠ ∅)
   then raise ValueError
   else if bool_decide (set_Forall (fun each => each ∈ dict_keys parameters) (default ∅ include))
   then
     let* properties := analyze 0 parameters exclude [] in
     let* schema := lift (model_json_schema properties) in
     let* required_params := get in
     let schema := dict_set schema "required" (store_value required_params) in
     let schema := dict_pop schema "title" in
     ret schema
   else raise AttributeError) include.

End Analyzer.

(** ** Callables, coroutines and the wrapper *)

Section Wrapper.

(** What a suspended coroutine may ask of the event loop. *)
Context {E : Type -> Type}.

Variable py_str : pyval -> string.
Variable field_json_schema : string -> annotation -> FieldDef -> result pyval.

(** A coroutine object: awaiting it runs it to a value or an exception,
    possibly suspending on the way, possibly forever. *)
Definition coroutine : Type := itree E (result pyval).

(** What a call hands back: a plain object, or a coroutine object that has
    not started running. *)
Inductive retval : Type :=
| Value (v : pyval)
| Coroutine (c : coroutine).

(** A function object, as far as the module looks at it: [__name__],
    [__doc__], [inspect.signature(func).parameters],
    [inspect.iscoroutinefunction(func)] and what calling it does.  A call
    raises at once when the arguments do not bind. *)
Record Callable : Type := mkCallable {
  __name__ : string;
  __doc__ : option string;
  parameters : signature;
  iscoroutinefunction : bool;
  call : list pyval -> list (string * pyval) -> result retval
}.

(** [a or b] on optional strings: [None] and the empty string are falsy. *)
Definition str_or (a : option string) (b : string) : string :=
  match a with
  | Some s => if decide (s = "") then b else s
  | None => b
  end.

(** Lines 64-78 *)
Definition _convert_to_gpt_func (func : Callable) (description : option string)
    (include exclude : option (gset string)) : store * result pyval :=
  let func_name := __name__ func in
  let doc := str_or description (str_or (__doc__ func) func_name) in
  match _convert_params_to_schema py_str field_json_schema (parameters func) include exclude with
  | (st, Ok schema) =>
      (st, Ok (PyDict [("name", PyStr func_name);
                       ("description", PyStr doc);
                       ("parameters", PyDict schema)]))
  | (st, Raise e) => (st, Raise e)
  end.

(** An instance of [_Wrapper] or of its subclass [_AsyncWrapper]. *)
Inductive wrapper_class : Type := _Wrapper | _AsyncWrapper.

Record Wrapper : Type := mkWrapper {
  w_class : wrapper_class;
  func : Callable;
  gpt_func : pyval
}.

(** Lines 82-90, shared by both classes. *)
Definition _Wrapper__init__ (cls : wrapper_class) (f : Callable) (description : option string)
    (include exclude : option (gset string)) : store * result Wrapper :=
  match _convert_to_gpt_func f description include exclude with
  | (st, Ok schema) => (st, Ok (mkWrapper cls f schema))
  | (st, Raise e) => (st, Raise e)
  end.

(** Lines 101-131: the decorator applied to [f]. *)
Definition gpt_callable_func (description : option string)
    (include exclude : option (gset string)) (f : Callable) : store * result Wrapper :=
  _Wrapper__init__ (if iscoroutinefunction f then _AsyncWrapper else _Wrapper)
    f description include exclude.

(** [await r]: only an awaitable can be awaited. *)
Definition await (r : retval) : coroutine :=
  match r with
  | Coroutine c => c
  | Value _ => Ret (Raise TypeError)
  end.

(** Sequencing inside an [async def] body: an exception ends the body. *)
Definition async_bind (c : coroutine) (k : pyval -> coroutine) : coroutine :=
  ITree.bind c (fun r => match r with Ok v => k v | Raise e => Ret (Raise e) end).

(** Lines 92-93.  [__call__] has a parameter [self] of its own, bound to
    the wrapper and followed by the variadic collectors.  A keyword argument
    named [self] would bind that parameter a second time, so such a call
    raises [TypeError] before the body runs; any other keyword goes to the
    callable. *)
Definition _Wrapper__call__ (self : Wrapper) (args : list pyval)
    (kwargs : list (string * pyval)) : result retval :=
  if bool_decide ("self" ∈ dict_keys kwargs) then Raise TypeError
  else call (func self) args kwargs.

(** Lines 97-98: the arguments are bound when the [async def] is called,
    with the same [TypeError] for a keyword named [self]; otherwise the call
    only creates the coroutine, and its body, [return await self.func(...)]
    on the same arguments, runs when awaited. *)
Definition _AsyncWrapper__call__ (self : Wrapper) (args : list pyval)
    (kwargs : list (string * pyval)) : result retval :=
  if bool_decide ("self" ∈ dict_keys kwargs) then Raise TypeError
  else
    Ok (Coroutine
          match call (func self) args kwargs with
          | Ok r => async_bind (await r) (fun v => Ret (Ok v))
          | Raise e => Ret (Raise e)
          end).

(** Calling the wrapper object, dispatched on the class of [self]. *)
Definition wrapper_call (self : Wrapper) : list pyval -> list (string * pyval) -> result retval :=
  match w_class self with
  | _Wrapper => _Wrapper__call__ self
  | _AsyncWrapper => _AsyncWrapper__call__ self
  end.

(** What a caller that writes [await <call>] observes. *)
Definition await_call (r : result retval) : coroutine :=
  match r with
  | Ok r => await r
  | Raise e => Ret (Raise e)
  end.

End Wrapper.

Arguments coroutine : clear implicits.
Arguments retval : clear implicits.
Arguments Callable : clear implicits.
Arguments Wrapper : clear implicits.

(** ** Reading a schema *)

(** The keys of [schema["properties"]]. *)
Definition schema_properties (schema : list (string * pyval)) : option (list string) :=
  match dict_get schema "properties" with
  | Some (PyDict props) => Some (dict_keys props)
  | _ => None
  end.

(** [name in schema["required"]], for a [required] that is a set or a list
    of strings; nothing is a member of any other value. *)
Definition in_required (name : string) (schema : list (string * pyval)) : Prop :=
  match dict_get schema "required" with
  | Some (PySet s) => name ∈ s
  | Some (PyList l) => PyStr name ∈ l
  | _ => False
  end.

(** [wrapper.gpt_func["parameters"]] *)
Definition gpt_parameters (gpt_func : pyval) : list (string * pyval) :=
  match gpt_func with
  | PyDict d => match dict_get d "parameters" with Some (PyDict p) => p | _ => [] end
  | _ => []
  end.

(** ** A reference rendering for concrete runs

    The statements below hold for every [py_str] and every field renderer.
    To run the module on concrete signatures, [Reference] gives the builtin
    [str] on scalars and pydantic's rendering of fields of the builtin scalar
    classes and of string literals.  It is partial: [PydanticError] is also
    its answer to what it does not cover. *)
Module Reference.

Definition is_alpha (c : ascii) : bool :=
  let n := nat_of_ascii c in
  ((65 <=? n) && (n <=? 90) || (97 <=? n) && (n <=? 122))%nat.

Definition upper (c : ascii) : ascii :=
  let n := nat_of_ascii c in
  if ((97 <=? n) && (n <=? 122))%nat then ascii_of_nat (n - 32) else c.

Definition lower (c : ascii) : ascii :=
  let n := nat_of_ascii c in
  if ((65 <=? n) && (n <=? 90))%nat then ascii_of_nat (n + 32) else c.

(** [s.title().replace("_", " ")] *)
Fixpoint title_from (in_word : bool) (s : string) : string :=
  match s with
  | EmptyString => EmptyString
  | String c rest =>
      if is_alpha c
      then String (if in_word then lower c else upper c) (title_from true rest)
      else String (if decide (c = "_"%char) then " "%char else c) (title_from false rest)
  end.

(** [s.rstrip()] for blanks *)
Fixpoint rstrip (s : string) : string :=
  match s with
  | EmptyString => EmptyString
  | String c rest =>
      let r := rstrip rest in
      if decide (c = " "%char ∧ r = EmptyString) then EmptyString else String c r
  end.

(** The title pydantic derives from a field name that does not start with
    an underscore. *)
Definition title (name : string) : string := rstrip (title_from false name).

(** [str] on strings, [None], booleans, integers and opaque objects,
    whose [str] is their [repr]; containers are outside the reference. *)
Definition py_str (v : pyval) : string :=
  match v with
  | PyStr s => s
  | PyNone => "None"
  | PyEllipsis => "Ellipsis"
  | PyBool true => "True"
  | PyBool false => "False"
  | PyInt z => pretty z
  | PyOpaque repr => repr
  | PyTuple _ | PyList _ | PyDict _ | PySet _ => "<container>"
  end.

Definition all_strings (choices : list pyval) : bool :=
  forallb (fun c => match c with PyStr _ => true | _ => false end) choices.

(** The keywords of an emitted type that sort before and after [title]. *)
Definition type_keywords (a : annotation)
    : result (list (string * pyval) * list (string * pyval)) :=
  match a with
  | AnnClass "int" => Ok ([], [("type", PyStr "integer")])
  | AnnClass "str" => Ok ([], [("type", PyStr "string")])
  | AnnClass "bool" => Ok ([], [("type", PyStr "boolean")])
  | AnnClass "float" => Ok ([], [("type", PyStr "number")])
  | AnnLiteral (c1 :: c2 :: choices) =>
      if all_strings (c1 :: c2 :: choices)
      then Ok ([("enum", PyList (c1 :: c2 :: choices))], [("type", PyStr "string")])
      else Raise PydanticError
  | _ => Raise PydanticError
  end.

Definition starts_with_underscore (name : string) : bool :=
  match name with
  | String "_"%char _ => true
  | _ => false
  end.

(** One property: [default] unless the field is required, [description]
    when given, the type keywords and the [title], keys sorted. *)
Definition field_json_schema (name : string) (a : annotation) (f : FieldDef) : result pyval :=
  if starts_with_underscore name then Raise PydanticError
  else
    match type_keywords a, f_description f with
    | Ok (before, after), PyNone | Ok (before, after), PyStr _ =>
        if field_required f || json_serializable (f_default f)
        then
          Ok (PyDict
                ((if field_required f then [] else [("default", f_default f)])
                 ++ (if f_description f is PyStr d then [("description", PyStr d)] else [])
                 ++ before ++ [("title", PyStr (title name))] ++ after)%list)
        else Raise PydanticError
    | _, _ => Raise PydanticError
    end.

End Reference.

(** ** Vocabulary of the statements *)

(** The parameters the loop analyses, counting positions from [idx]: those
    it does not skip as receiver or as variadic. *)
Fixpoint analyzed (idx : nat) (parameters : signature) : signature :=
  match parameters with
  | [] => []
  | (p_name, p) :: rest =>
      if is_receiver idx p_name p || is_var p
      then analyzed (S idx) rest
      else (p_name, p) :: analyzed (S idx) rest
  end.

(** The names line 35 can add to the set: the analysed parameters without
    default that [exclude] does not hold. *)
Definition undefaulted (idx : nat) (parameters : signature) (exclude : gset string)
    : gset string :=
  list_to_set
    (fst <$> filter (λ np, has_default np.2 = false ∧ np.1 ∉ exclude)
                    (analyzed idx parameters)).

(** The parameter's annotation unpacks and the schema library accepts the
    field made of it. *)
Definition renders (py_str : pyval -> string)
    (field_json_schema : string -> annotation -> FieldDef -> result pyval)
    (np : string * PyParameter) : bool :=
  match emit py_str np.2 with
  | Ok (a, fld) => is_ok (field_json_schema np.1 a fld)
  | Raise _ => false
  end.

(** The description line 46-49 leaves for one metadata value. *)
Definition metadata_description (py_str : pyval -> string) (m : pyval) : option pyval :=
  match m with
  | PyTuple [] => None
  | PyTuple (first :: _) => Some (PyStr (py_str first))
  | _ => Some m
  end.

(** [include] and [exclude] share a member: [set.intersection(include,
    exclude)] is not empty, [None] having no members. *)
Definition overlap (include exclude : option (gset string)) : Prop :=
  default ∅ include ∩ default ∅ exclude ≠ ∅.

(** ** Concrete callables *)

Module Examples.

Definition positional (default : option pyval) (a : annotation) : PyParameter :=
  mkParameter POSITIONAL_OR_KEYWORD default a.

(** [class Level(Enum): LOW = 1; HIGH = 2] *)
Definition Level : annotation := AnnEnum "Level" ["LOW"; "HIGH"].

(** [(a, b=1)] *)
Definition sig_a_b1 : signature :=
  [("a", positional None AnnEmpty); ("b", positional (Some (PyInt 1)) AnnEmpty)].

(** [(a: int, b: int = 1)] *)
Definition sig_int_a_b1 : signature :=
  [("a", positional None (AnnClass "int"));
   ("b", positional (Some (PyInt 1)) (AnnClass "int"))].

(** [(a: int)] *)
Definition sig_int_a : signature := [("a", positional None (AnnClass "int"))].

(** [(a: Annotated[int, "x", "y"] = 1, *, b)] *)
Definition sig_two_metadata : signature :=
  [("a", positional (Some (PyInt 1)) (AnnAnnotated (AnnClass "int") [PyStr "x"; PyStr "y"]));
   ("b", mkParameter KEYWORD_ONLY None AnnEmpty)].

(** [(a: int = 1, **kwargs)] *)
Definition sig_a_kwargs : signature :=
  [("a", positional (Some (PyInt 1)) (AnnClass "int"));
   ("kwargs", mkParameter VAR_KEYWORD None AnnEmpty)].

(** [(level: Level)] *)
Definition sig_level : signature := [("level", positional None Level)].

(** [(self, a: int)] *)
Definition sig_self_a : signature :=
  [("self", positional None AnnEmpty); ("a", positional None (AnnClass "int"))].

(** [(self: Level, a: int)] *)
Definition sig_self_level : signature :=
  [("self", positional None Level); ("a", positional None (AnnClass "int"))].

(** [(n: FieldInfo(annotation=int, default=5, description="count") = 7)] *)
Definition sig_field_info : signature :=
  [("n", positional (Some (PyInt 7))
           (AnnFieldInfo (PyInt 5) (PyStr "count") (AnnClass "int")))].

(** [(city: Annotated[str, "The city"], level: Annotated[Level, ("how much", 1)])] *)
Definition sig_annotated : signature :=
  [("city", positional None (AnnAnnotated (AnnClass "str") [PyStr "The city"]));
   ("level", positional None
               (AnnAnnotated Level [PyTuple [PyStr "how much"; PyInt 1]]))].

(** [(a: int, *args, b: int = 1, **kwargs)] *)
Definition sig_variadic : signature :=
  [("a", positional None (AnnClass "int"));
   ("args", mkParameter VAR_POSITIONAL None AnnEmpty);
   ("b", mkParameter KEYWORD_ONLY (Some (PyInt 1)) (AnnClass "int"));
   ("kwargs", mkParameter VAR_KEYWORD None AnnEmpty)].

(** [(a: int, self: int = 0)] *)
Definition sig_a_self : signature :=
  [("a", positional None (AnnClass "int"));
   ("self", positional (Some (PyInt 0)) (AnnClass "int"))].

(** [(a: int = 1)] *)
Definition sig_int_a1 : signature := [("a", positional (Some (PyInt 1)) (AnnClass "int"))].

(** [def <name>(<sig>): <doc>] with a docstring and nothing else *)
Definition documented {E} (name doc : string) (sig : signature) : Callable E :=
  mkCallable name (Some doc) sig false (fun _ _ => Ok (Value PyNone)).

(** [def <name>(<sig>): pass] *)
Definition def {E} (name : string) (sig : signature) : Callable E :=
  mkCallable name None sig false (fun _ _ => Ok (Value PyNone)).

(** [async def <name>(<sig>): pass] *)
Definition async_def {E} (name : string) (sig : signature) : Callable E :=
  mkCallable name None sig true (fun _ _ => Ok (Coroutine (Ret (Ok PyNone)))).

End Examples.

Import Examples.

(** The decorator over the reference rendering, for callables that never
    suspend. *)
Abbreviation ref_wrap :=
  (gpt_callable_func (E:=void1) Reference.py_str Reference.field_json_schema).

(** Settle a decidable proposition about concrete data by evaluating its
    decision procedure. *)
Ltac decide_by_computation := apply (bool_decide_unpack _); vm_compute; exact I.

(** ** Facts about dictionaries *)

Section DictFacts.
Context {V : Type}.
Implicit Types (d : list (string * V)) (k : string) (v : V).

Lemma dict_get_set d k v k' :
  dict_get (dict_set d k v) k' = if decide (k = k') then Some v else dict_get d k'.
Proof.
  induction d as [|[k0 v0] d IH]; simpl.
  - repeat case_decide; congruence.
  - destruct (decide (k0 = k)) as [->|Hne]; simpl.
    + repeat case_decide; congruence.
    + rewrite IH. repeat case_decide; congruence.
Qed.

Lemma dict_get_pop d k k' :
  dict_get (dict_pop d k) k' = if decide (k = k') then None else dict_get d k'.
Proof.
  induction d as [|[k0 v0] d IH]; simpl.
  - by case_decide.
  - destruct (decide (k0 = k)) as [->|Hne]; simpl.
    + rewrite IH. repeat case_decide; congruence.
    + rewrite IH. repeat case_decide; congruence.
Qed.

Lemma dict_get_Some_keys d k v : dict_get d k = Some v → k ∈ dict_keys d.
Proof.
  induction d as [|[k0 v0] d IH]; simpl; [done|].
  case_decide as Hk; intros H.
  - subst. apply list_elem_of_here.
  - apply list_elem_of_further, IH, H.
Qed.

Lemma dict_get_None_keys d k : dict_get d k = None ↔ k ∉ dict_keys d.
Proof.
  induction d as [|[k0 v0] d IH]; simpl.
  - split; [intros _; apply not_elem_of_nil | done].
  - rewrite not_elem_of_cons. case_decide as Hk.
    + split; [done | intros [? _]; congruence].
    + rewrite IH. naive_solver.
Qed.

Lemma dict_keys_set d k v x :
  x ∈ dict_keys (dict_set d k v) ↔ x = k ∨ x ∈ dict_keys d.
Proof.
  induction d as [|[k0 v0] d IH]; simpl.
  - rewrite list_elem_of_singleton. split; [auto | intros [?|H]; [done | inversion H]].
  - case_decide as Hk; simpl.
    + subst. rewrite !elem_of_cons. naive_solver.
    + rewrite !elem_of_cons, IH. naive_solver.
Qed.

Lemma dict_get_elem_of d k v :
  NoDup (dict_keys d) → (k, v) ∈ d → dict_get d k = Some v.
Proof.
  induction d as [|[k0 v0] d IH]; simpl; intros Hnd Hin.
  - inversion Hin.
  - apply NoDup_cons in Hnd as [Hk0 Hnd].
    apply elem_of_cons in Hin as [Heq|Hin].
    + inversion Heq; subst. by rewrite decide_True.
    + rewrite decide_False; [by apply IH|].
      intros ->. apply Hk0. unfold dict_keys.
      apply list_elem_of_fmap. by exists (k, v).
Qed.
End DictFacts.

(** ** Facts about the analyzer *)

Lemma analyzed_elem_of idx ps name p :
  (name, p) ∈ analyzed idx ps ↔
  ∃ i, ps !! i = Some (name, p) ∧ is_receiver (idx + i) name p = false ∧ is_var p = false.
Proof.
  revert idx. induction ps as [|[n q] ps IH]; intros idx; simpl.
  - split; [intros H; inversion H | intros (i & H & _); by destruct i].
  - destruct (is_receiver idx n q || is_var q) eqn:Hskip.
    + rewrite IH. split.
      * intros (i & Hi & Hr & Hv). exists (S i).
        by rewrite <- Nat.add_succ_comm.
      * intros ([|i] & Hi & Hr & Hv); simpl in Hi.
        -- injection Hi as -> ->. rewrite Nat.add_0_r in Hr.
           rewrite Hr, Hv in Hskip. discriminate.
        -- exists i. by rewrite Nat.add_succ_comm.
    + apply orb_false_iff in Hskip as [Hr0 Hv0].
      rewrite elem_of_cons, IH. split.
      * intros [Heq|(i & Hi & Hr & Hv)].
        -- injection Heq as -> ->. exists 0. by rewrite Nat.add_0_r.
        -- exists (S i). by rewrite <- Nat.add_succ_comm.
      * intros ([|i] & Hi & Hr & Hv); simpl in Hi.
        -- left. by injection Hi as -> ->.
        -- right. exists i. by rewrite Nat.add_succ_comm.
Qed.

Lemma analyzed_keys_sublist idx ps : dict_keys (analyzed idx ps) `sublist_of` dict_keys ps.
Proof.
  revert idx. induction ps as [|[n q] ps IH]; intros idx; simpl; [done|].
  destruct (_ || _); simpl.
  - by apply sublist_cons.
  - by apply sublist_skip.
Qed.

Lemma analyzed_keys_NoDup idx ps : NoDup (dict_keys ps) → NoDup (dict_keys (analyzed idx ps)).
Proof. intros H. eapply sublist_NoDup; [exact H | apply analyzed_keys_sublist]. Qed.

(** With distinct parameter names, a parameter's name is among the analysed
    names exactly when the parameter itself is analysed. *)
Lemma analyzed_key_iff ps i name p :
  NoDup (dict_keys ps) → ps !! i = Some (name, p) →
  name ∈ dict_keys (analyzed 0 ps) ↔ is_receiver i name p = false ∧ is_var p = false.
Proof.
  intros Hnd Hi. split.
  - intros Hin. apply list_elem_of_fmap in Hin as ([n q] & Hn & Hin). simpl in Hn. subst n.
    apply analyzed_elem_of in Hin as (j & Hj & Hr & Hv). simpl in Hr.
    assert (i = j) as <-.
    { apply (NoDup_lookup (dict_keys ps) i j name Hnd); unfold dict_keys;
        rewrite list_lookup_fmap.
      - by rewrite Hi.
      - by rewrite Hj. }
    rewrite Hi in Hj. by injection Hj as <-.
  - intros [Hr Hv]. apply list_elem_of_fmap. exists (name, p). split; [done|].
    apply analyzed_elem_of. by exists i.
Qed.

Section AnalyzerFacts.

Variable py_str : pyval -> string.

Lemma mark_required_run name p exclude st :
  mark_required name p exclude st =
    if has_default p then (st, Ok tt)
    else match st with
         | None => (None, Raise TypeError)
         | Some s =>
             if bool_decide (name ∈ s) then (st, Ok tt)
             else match exclude with
                  | None => (st, Raise TypeError)
                  | Some exc =>
                      if bool_decide (name ∈ exc) then (st, Ok tt)
                      else (Some ({[name]} ∪ s), Ok tt)
                  end
         end.
Proof.
  unfold mark_required, and_then, bind, get, not_in, ret, raise, set_add.
  destruct (has_default p); simpl; [done|].
  destruct st as [s|]; simpl; [|done].
  rewrite bool_decide_not. destruct (bool_decide (name ∈ s)); simpl; [done|].
  destruct exclude as [exc|]; simpl; [|done].
  rewrite bool_decide_not. by destruct (bool_decide (name ∈ exc)).
Qed.

Lemma analyze_cons idx name p rest exclude props st :
  analyze py_str idx ((name, p) :: rest) exclude props st =
    if is_receiver idx name p || is_var p
    then analyze py_str (S idx) rest exclude props st
    else match mark_required name p exclude st with
         | (st1, Ok _) =>
             match emit py_str p with
             | Ok entry => analyze py_str (S idx) rest exclude (dict_set props name entry) st1
             | Raise e => (st1, Raise e)
             end
         | (st1, Raise e) => (st1, Raise e)
         end.
Proof.
  simpl. destruct (is_receiver idx name p); simpl; [done|].
  destruct (is_var p); simpl; [done|].
  unfold bind, lift. destruct (mark_required name p exclude st) as [st1 [[]|e]]; [|done].
  by destruct (emit py_str p).
Qed.

(** The loop only ever adds to the set, and only names of analysed
    parameters that [exclude] does not hold. *)
Lemma analyze_store idx ps exclude props st st' r :
  analyze py_str idx ps exclude props st = (st', r) →
  match st with
  | None => st' = None
  | Some s =>
      ∃ s', st' = Some s' ∧ s ⊆ s' ∧
        ∀ x, x ∈ s' → x ∉ s →
             x ∈ dict_keys (analyzed idx ps) ∧ ∃ exc, exclude = Some exc ∧ x ∉ exc
  end.
Proof.
  revert idx props st. induction ps as [|[n q] ps IH]; intros idx props st.
  - simpl. unfold ret. intros [= <- <-]. destruct st as [s|]; [|done].
    exists s. split_and!; [done..|]. intros x Hx Hnx. done.
  - rewrite analyze_cons. simpl analyzed.
    destruct (is_receiver idx n q || is_var q); [apply IH|].
    rewrite mark_required_run.
    destruct (has_default q) eqn:Hd.
    { destruct (emit py_str q) as [entry|e].
      - intros H. apply IH in H. destruct st as [s|]; [|done].
        destruct H as (s' & -> & Hsub & Hnew). exists s'. split_and!; [done..|].
        intros x Hx Hnx. destruct (Hnew x Hx Hnx) as [Hk Hexc]. split; [|done].
        simpl. by apply list_elem_of_further.
      - intros [= <- <-]. destruct st as [s|]; [|done].
        exists s. split_and!; [done..|]. done. }
    destruct st as [s|]; [|by intros [= <- <-]].
    destruct (bool_decide (n ∈ s)) eqn:Hn.
    { destruct (emit py_str q) as [entry|e].
      - intros H. apply IH in H.
        destruct H as (s' & -> & Hsub & Hnew). exists s'. split_and!; [done..|].
        intros x Hx Hnx. destruct (Hnew x Hx Hnx) as [Hk Hexc]. split; [|done].
        simpl. by apply list_elem_of_further.
      - intros [= <- <-]. exists s. split_and!; [done..|]. done. }
    destruct exclude as [exc|]; [|intros [= <- <-]; exists s; split_and!; done].
    destruct (bool_decide (n ∈ exc)) eqn:Hx.
    { destruct (emit py_str q) as [entry|e].
      - intros H. apply IH in H.
        destruct H as (s' & -> & Hsub & Hnew). exists s'. split_and!; [done..|].
        intros x Hx' Hnx. destruct (Hnew x Hx' Hnx) as [Hk Hexc]. split; [|done].
        simpl. by apply list_elem_of_further.
      - intros [= <- <-]. exists s. split_and!; [done..|]. done. }
    apply bool_decide_eq_false in Hx.
    destruct (emit py_str q) as [entry|e].
    + intros H. apply IH in H.
      destruct H as (s' & -> & Hsub & Hnew). exists s'. split_and!; [done|set_solver|].
      intros x Hx' Hnx. destruct (decide (x = n)) as [->|Hne].
      * split; [simpl; apply list_elem_of_here | by exists exc].
      * destruct (Hnew x Hx') as [Hk Hexc]; [set_solver|]. split; [|done].
        simpl. by apply list_elem_of_further.
    + intros [= <- <-]. exists ({[n]} ∪ s). split_and!; [done|set_solver|].
      intros x Hx' Hnx. assert (x = n) as -> by set_solver.
      split; [simpl; apply list_elem_of_here | by exists exc].
Qed.

(** A run of the loop that returns went through [emit] for every analysed
    parameter. *)
Lemma analyze_ok_inv idx name p rest exclude props st st' props' :
  analyze py_str idx ((name, p) :: rest) exclude props st = (st', Ok props') →
  if is_receiver idx name p || is_var p
  then analyze py_str (S idx) rest exclude props st = (st', Ok props')
  else ∃ st1 entry,
      mark_required name p exclude st = (st1, Ok tt) ∧ emit py_str p = Ok entry ∧
      analyze py_str (S idx) rest exclude (dict_set props name entry) st1 = (st', Ok props').
Proof.
  rewrite analyze_cons. destruct (_ || _); [done|].
  destruct (mark_required name p exclude st) as [st1 [[]|e]]; [|done].
  destruct (emit py_str p) as [entry|e]; [|done].
  intros H. by exists st1, entry.
Qed.

Lemma analyze_keys idx ps exclude props st st' props' :
  analyze py_str idx ps exclude props st = (st', Ok props') →
  ∀ x, x ∈ dict_keys props' ↔ x ∈ dict_keys props ∨ x ∈ dict_keys (analyzed idx ps).
Proof.
  revert idx props st. induction ps as [|[n q] ps IH]; intros idx props st H x.
  - injection H as <- <-. simpl. rewrite elem_of_nil. naive_solver.
  - apply analyze_ok_inv in H. simpl analyzed.
    destruct (_ || _); [exact (IH _ _ _ H x)|].
    destruct H as (st1 & entry & _ & _ & H).
    rewrite (IH _ _ _ H x), dict_keys_set. simpl. rewrite elem_of_cons. naive_solver.
Qed.

Lemma analyze_get_other idx ps exclude props st st' props' x :
  analyze py_str idx ps exclude props st = (st', Ok props') →
  x ∉ dict_keys (analyzed idx ps) → dict_get props' x = dict_get props x.
Proof.
  revert idx props st. induction ps as [|[n q] ps IH]; intros idx props st H Hx.
  - by injection H as <- <-.
  - apply analyze_ok_inv in H. simpl analyzed in Hx.
    destruct (_ || _); [by eapply IH|].
    destruct H as (st1 & entry & _ & _ & H).
    simpl in Hx. apply not_elem_of_cons in Hx as [Hne Hx].
    rewrite (IH _ _ _ H Hx), dict_get_set. by rewrite decide_False.
Qed.

(** With distinct names, [properties] holds for each analysed parameter
    what [emit] made of it. *)
Lemma analyze_get idx ps exclude props st st' props' name p :
  analyze py_str idx ps exclude props st = (st', Ok props') →
  NoDup (dict_keys (analyzed idx ps)) → (name, p) ∈ analyzed idx ps →
  ∃ entry, emit py_str p = Ok entry ∧ dict_get props' name = Some entry.
Proof.
  revert idx props st. induction ps as [|[n q] ps IH]; intros idx props st H Hnd Hin.
  - inversion Hin.
  - apply analyze_ok_inv in H. simpl analyzed in Hnd, Hin.
    destruct (_ || _); [by eapply IH|].
    destruct H as (st1 & entry & _ & Hemit & H).
    simpl in Hnd. apply NoDup_cons in Hnd as [Hn Hnd].
    apply elem_of_cons in Hin as [Heq|Hin].
    + injection Heq as -> ->. exists entry. split; [done|].
      rewrite (analyze_get_other _ _ _ _ _ _ _ _ H Hn), dict_get_set.
      by rewrite decide_True.
    + by eapply IH.
Qed.

(** A parameter without default stops the loop when the set it would be
    checked against is [None], unless an annotation before it fails to
    unpack. *)
Lemma analyze_None_raises idx ps exclude props pre name p post :
  analyzed idx ps = (pre ++ (name, p) :: post)%list → has_default p = false →
  (∃ e, analyze py_str idx ps exclude props None = (None, Raise e)) ∧
  (Forall (λ q, is_ok (emit py_str q.2) = true) pre →
   analyze py_str idx ps exclude props None = (None, Raise TypeError)).
Proof.
  revert idx props pre. induction ps as [|[n q] ps IH]; intros idx props pre Hps Hd.
  - by destruct pre.
  - rewrite analyze_cons. simpl analyzed in Hps.
    destruct (_ || _); [by eapply IH|].
    rewrite mark_required_run.
    destruct pre as [|[n' q'] pre]; simpl in Hps.
    + injection Hps as -> -> _. rewrite Hd. split; [by exists TypeError | done].
    + injection Hps as -> -> Hps.
      destruct (has_default q'); [|split; [by exists TypeError | done]].
      destruct (emit py_str q') as [entry|e] eqn:Hemit.
      * destruct (IH (S idx) (dict_set props n' entry) pre Hps Hd) as [IH1 IH2].
        split; [done|]. intros Hall. apply Forall_cons in Hall as [_ Hall]. by apply IH2.
      * split; [by exists e|]. intros Hall. apply Forall_cons in Hall as [Hq _].
        simpl in Hq. by rewrite Hemit in Hq.
Qed.

End AnalyzerFacts.

(** ** Facts about the rendering and the patched schema *)

Section SchemaFacts.

Variable py_str : pyval -> string.
Variable field_json_schema : string -> annotation -> FieldDef -> result pyval.

Lemma render_fields_keys props rendered :
  render_fields field_json_schema props = Ok rendered → dict_keys rendered = dict_keys props.
Proof.
  revert rendered. induction props as [|[n [a f]] props IH]; intros rendered; simpl.
  - by intros [= <-].
  - destruct (field_json_schema n a f) as [js|e]; [|done].
    destruct (render_fields field_json_schema props) as [r|e]; [|done].
    intros [= <-]. simpl. f_equal. by apply IH.
Qed.

Lemma render_fields_get props rendered name a f :
  render_fields field_json_schema props = Ok rendered →
  dict_get props name = Some (a, f) →
  ∃ js, field_json_schema name a f = Ok js ∧ dict_get rendered name = Some js.
Proof.
  revert rendered. induction props as [|[n [a' f']] props IH]; intros rendered; simpl; [done|].
  destruct (field_json_schema n a' f') as [js|e] eqn:Hjs; [|done].
  destruct (render_fields field_json_schema props) as [r|e]; [|done].
  intros [= <-]. simpl. case_decide as Hn.
  - intros [= -> ->]. subst n. by exists js.
  - intros H. by apply IH.
Qed.

(** What a returned schema is made of. *)
Lemma convert_ok_inv ps include exclude st' schema :
  _convert_params_to_schema py_str field_json_schema ps include exclude = (st', Ok schema) →
  ¬ overlap include exclude ∧
  (∀ x, x ∈ default ∅ include → x ∈ dict_keys ps) ∧
  ∃ props rendered,
    analyze py_str 0 ps exclude [] include = (st', Ok props) ∧
    render_fields field_json_schema props = Ok rendered ∧
    dict_get schema "properties" = Some (PyDict rendered) ∧
    dict_get schema "required" = Some (store_value st') ∧
    dict_get schema "title" = None.
Proof.
  unfold _convert_params_to_schema.
  destruct (truthy include && truthy exclude
            && bool_decide (default ∅ include ∩ default ∅ exclude ≠ ∅)) eqn:Hov; [done|].
  destruct (bool_decide (set_Forall _ _)) eqn:Hinc; [|done].
  apply bool_decide_eq_true in Hinc.
  unfold bind, lift, get, ret. cbv beta.
  destruct (analyze py_str 0 ps exclude [] include) as [st1 [props|e]] eqn:Han; [|done].
  unfold model_json_schema.
  destruct (render_fields field_json_schema props) as [rendered|e] eqn:Hr; [|done].
  intros [= <- <-]. split_and!.
  - unfold overlap.
    destruct include as [inc|], exclude as [exc|]; simpl in *; try set_solver.
    rewrite !andb_false_iff, !bool_decide_eq_false in Hov. set_solver.
  - intros x Hx. by apply Hinc.
  - exists props, rendered. split_and!; [done..| | |];
      destruct (filter _ props); reflexivity.
Qed.

End SchemaFacts.

(** ** Facts about the decorator *)

Section DecoratorFacts.

Context {E : Type -> Type}.
Variable py_str : pyval -> string.
Variable field_json_schema : string -> annotation -> FieldDef -> result pyval.

Lemma wrap_ok_inv (f : Callable E) description include exclude st w :
  gpt_callable_func py_str field_json_schema description include exclude f = (st, Ok w) →
  func w = f ∧
  w_class w = (if iscoroutinefunction f then _AsyncWrapper else _Wrapper) ∧
  _convert_params_to_schema py_str field_json_schema (parameters f) include exclude
    = (st, Ok (gpt_parameters (gpt_func w))).
Proof.
  unfold gpt_callable_func, _Wrapper__init__, _convert_to_gpt_func.
  destruct (_convert_params_to_schema _ _ _ _ _) as [st1 [schema|e]]; [|done].
  by intros [= <- <-].
Qed.

Lemma wrap_raise (f : Callable E) description include exclude st e :
  _convert_params_to_schema py_str field_json_schema (parameters f) include exclude
    = (st, Raise e) →
  gpt_callable_func py_str field_json_schema description include exclude f = (st, Raise e).
Proof.
  unfold gpt_callable_func, _Wrapper__init__, _convert_to_gpt_func. by intros ->.
Qed.

(** The keys of [properties] in a returned schema are the names of the
    analysed parameters. *)
Lemma wrap_properties (f : Callable E) description include exclude st w :
  gpt_callable_func py_str field_json_schema description include exclude f = (st, Ok w) →
  ∃ keys, schema_properties (gpt_parameters (gpt_func w)) = Some keys ∧
          ∀ x, x ∈ keys ↔ x ∈ dict_keys (analyzed 0 (parameters f)).
Proof.
  intros H. apply wrap_ok_inv in H as (_ & _ & H).
  apply convert_ok_inv in H as (_ & _ & props & rendered & Han & Hr & Hp & _).
  exists (dict_keys rendered). unfold schema_properties. rewrite Hp. split; [done|].
  intros x. rewrite (render_fields_keys _ _ _ Hr), (analyze_keys _ _ _ _ _ _ _ _ Han x).
  simpl. rewrite elem_of_nil. naive_solver.
Qed.

(** [required] in a returned schema is the object [include]: [None], or
    the set, grown by the loop. *)
Lemma wrap_required (f : Callable E) description include exclude st w :
  gpt_callable_func py_str field_json_schema description include exclude f = (st, Ok w) →
  dict_get (gpt_parameters (gpt_func w)) "required" = Some (store_value st) ∧
  dict_get (gpt_parameters (gpt_func w)) "title" = None.
Proof.
  intros H. apply wrap_ok_inv in H as (_ & _ & H).
  by apply convert_ok_inv in H as (_ & _ & props & rendered & _ & _ & _ & Hreq & Ht).
Qed.

(** So [required] is never a list, on any successful wrap. *)
Lemma wrap_required_not_a_list (f : Callable E) description include exclude st w names :
  gpt_callable_func py_str field_json_schema description include exclude f = (st, Ok w) →
  dict_get (gpt_parameters (gpt_func w)) "required" ≠ Some (PyList names).
Proof.
  intros H. destruct (wrap_required _ _ _ _ _ _ H) as [-> _]. by destruct st.
Qed.

End DecoratorFacts.

(** ** The specification's claims *)

Section Claims.

Context {E : Type -> Type}.
Variable py_str : pyval -> string.
Variable field_json_schema : string -> annotation -> FieldDef -> result pyval.

Abbreviation wrap := (gpt_callable_func (E:=E) py_str field_json_schema).

(** C1, as the code has it.  On every successful wrap a name of the
    [exclude] set is not a member of the schema's [required]; it remains a
    key of [properties] exactly when it names an analysed parameter (one
    that is neither the skipped receiver nor variadic): [exclude] keeps a
    parameter out of [required] and does nothing else. *)
Theorem exclude_only_affects_required (f : Callable E) description include exclude st w x :
  wrap description include exclude f = (st, Ok w) →
  x ∈ default ∅ exclude →
  ¬ in_required x (gpt_parameters (gpt_func w)) ∧
  ∃ keys, schema_properties (gpt_parameters (gpt_func w)) = Some keys ∧
          (x ∈ keys ↔ x ∈ dict_keys (analyzed 0 (parameters f))).
Proof.
  intros Hw Hx. split.
  - destruct (wrap_required _ _ _ _ _ _ _ _ Hw) as [Hreq _].
    unfold in_required. rewrite Hreq.
    apply wrap_ok_inv in Hw as (_ & _ & Hc).
    apply convert_ok_inv in Hc as (Hov & _ & props & rendered & Han & _).
    apply analyze_store in Han.
    destruct include as [s|]; [|subst st; simpl; tauto].
    destruct Han as (s' & -> & _ & Hnew). simpl. intros Hin.
    destruct (decide (x ∈ s)) as [Hs|Hs].
    + apply Hov. unfold overlap. simpl. set_solver.
    + destruct (Hnew x Hin Hs) as (_ & exc & -> & Hexc). by apply Hexc.
  - destruct (wrap_properties _ _ _ _ _ _ _ _ Hw) as (keys & Hk & Hiff).
    exists keys. by split.
Qed.

(** C7.  When [include] and [exclude] share a member, applying the
    decorator raises [ValueError] whatever the callable and whatever the
    schema library would do: nothing is analysed or rendered, and the
    caller's [include] set is left as it was. *)
Theorem overlap_raises_first (f : Callable E) description (inc exc : gset string) :
  inc ∩ exc ≠ ∅ →
  wrap description (Some inc) (Some exc) f = (Some inc, Raise ValueError).
Proof.
  intros Hov. apply wrap_raise. unfold _convert_params_to_schema. simpl.
  rewrite (bool_decide_eq_true_2 (inc ≠ ∅)) by set_solver.
  rewrite (bool_decide_eq_true_2 (exc ≠ ∅)) by set_solver.
  by rewrite (bool_decide_eq_true_2 (inc ∩ exc ≠ ∅)).
Qed.

(** C8, as the code has it.  When [include] holds a name that is not a
    parameter of the callable and shares no member with [exclude],
    applying the decorator raises [AttributeError] at once: no wrapper
    comes into being, and the [include] set is left as it was.  (When the
    two sets overlap as well, the [ValueError] of C7 is raised instead.) *)
Theorem unknown_include_raises (f : Callable E) description (inc : gset string) exclude x :
  x ∈ inc → x ∉ dict_keys (parameters f) → ¬ overlap (Some inc) exclude →
  wrap description (Some inc) exclude f = (Some inc, Raise AttributeError).
Proof.
  intros Hx Hnot Hov. apply wrap_raise. unfold _convert_params_to_schema.
  destruct (truthy (Some inc) && truthy exclude && _) eqn:Hc.
  { exfalso. apply Hov. apply andb_true_iff in Hc as [_ Hc].
    by apply bool_decide_eq_true in Hc. }
  rewrite bool_decide_eq_false_2; [done|].
  intros Hall. apply Hnot, (Hall x). done.
Qed.


(** C9.  In every schema the decorator returns, a parameter annotated with
    an enum class (and not variadic, so that it has an entry at all) is
    described by what the schema library renders for the literal type of
    the enum's member names, in definition order, never for the enum class
    itself. *)
Theorem enum_emitted_as_literal (f : Callable E) description include exclude st w
    i name p ename members :
  wrap description include exclude f = (st, Ok w) →
  NoDup (dict_keys (parameters f)) →
  parameters f !! i = Some (name, p) → is_var p = false →
  p_annotation p = AnnEnum ename members →
  ∃ props js,
    dict_get (gpt_parameters (gpt_func w)) "properties" = Some (PyDict props) ∧
    dict_get props name = Some js ∧
    field_json_schema name (AnnLiteral (PyStr <$> members))
      (Field (default PyEllipsis (p_default p)) PyNone) = Ok js.
Proof.
  intros Hw Hnd Hi Hvar Hann.
  apply wrap_ok_inv in Hw as (_ & _ & Hc).
  apply convert_ok_inv in Hc as (_ & _ & props & rendered & Han & Hr & Hp & _).
  assert ((name, p) ∈ analyzed 0 (parameters f)) as Hana.
  { apply analyzed_elem_of.
    exists i. split_and!; [done| |done].
    unfold is_receiver. rewrite Hann. simpl. by rewrite andb_false_r. }
  destruct (analyze_get _ _ _ _ _ _ _ _ _ _ Han (analyzed_keys_NoDup _ _ Hnd) Hana)
    as ([a fld] & Hemit & Hget).
  unfold emit in Hemit. rewrite Hann in Hemit. simpl in Hemit.
  injection Hemit as <- <-.
  destruct (render_fields_get _ _ _ _ _ _ Hr Hget) as (js & Hjs & Hrg).
  by exists rendered, js.
Qed.

End Claims.

(** ** Runs on concrete callables *)


(** C2.  [def f(a, b=1)] decorated with neither [include] nor [exclude]:
    the decorator does not return a wrapper, it raises the [TypeError] of
    [p_name not in required_params] with [required_params] being [None],
    and that before the schema library is reached, so whatever it is. *)
Theorem plain_decorator_on_a_b1_raises (E : Type -> Type) py_str field_json_schema description :
  gpt_callable_func (E:=E) py_str field_json_schema description None None (def "f" sig_a_b1)
  = (None, Raise TypeError).
Proof. reflexivity. Qed.

(** C4.  [def f(a: int = 1, **kwargs)] decorated with
    [include={"kwargs"}]: the wrap succeeds, [required] names [kwargs],
    and [properties] has no such key. *)
Theorem included_variadic_is_required_without_property :
  ∃ st w keys,
    ref_wrap None (Some {["kwargs"]}) None (def "f" sig_a_kwargs) = (st, Ok w) ∧
    in_required "kwargs" (gpt_parameters (gpt_func w)) ∧
    schema_properties (gpt_parameters (gpt_func w)) = Some keys ∧
    "kwargs" ∉ keys.
Proof.
  eexists _, _, _. split_and!.
  - vm_compute. reflexivity.
  - vm_compute. set_solver.
  - vm_compute. reflexivity.
  - set_solver.
Qed.

(** C5.  [def f(a: int)] decorated with [include=set(), exclude=set()]:
    the wrap succeeds and [required] is the Python set [{"a"}], not a list;
    [json.dumps] rejects the attached schema.  The [title] key is gone. *)
Theorem required_is_a_set :
  ∃ st w,
    ref_wrap None (Some ∅) (Some ∅) (def "f" sig_int_a) = (st, Ok w) ∧
    dict_get (gpt_parameters (gpt_func w)) "required" = Some (PySet {["a"]}) ∧
    dict_get (gpt_parameters (gpt_func w)) "title" = None ∧
    json_serializable (gpt_func w) = false.
Proof.
  eexists _, _. split_and!.
  - vm_compute. reflexivity.
  - vm_compute. reflexivity.
  - vm_compute. reflexivity.
  - vm_compute. reflexivity.
Qed.


(** C1 as written fails.  [def f(a: int, b: int = 1)] decorated with
    [include=set(), exclude={"b"}]: the wrap succeeds and [b], though
    excluded, is a key of [properties]. *)
Lemma excluded_parameter_keeps_its_property :
  ∃ st w keys,
    ref_wrap None (Some ∅) (Some {["b"]}) (def "f" sig_int_a_b1) = (st, Ok w) ∧
    "b" ∈ ({["b"]} : gset string) ∧
    schema_properties (gpt_parameters (gpt_func w)) = Some keys ∧
    "b" ∈ keys.
Proof.
  eexists _, _, _. split_and!.
  - vm_compute. reflexivity.
  - decide_by_computation.
  - vm_compute. reflexivity.
  - decide_by_computation.
Qed.

Lemma exclude_only_affects_required_witness :
  ∃ st w,
    ref_wrap None (Some ∅) (Some {["b"]}) (def "f" sig_int_a_b1) = (st, Ok w) ∧
    "b" ∈ default (∅ : gset string) (Some {["b"]}) ∧
    (¬ in_required "b" (gpt_parameters (gpt_func w)) ∧
     ∃ keys, schema_properties (gpt_parameters (gpt_func w)) = Some keys ∧
             ("b" ∈ keys ↔ "b" ∈ dict_keys (analyzed 0 (parameters (def (E:=void1) "f" sig_int_a_b1))))).
Proof.
  eexists _, _.
  assert ("b" ∈ default (∅ : gset string) (Some {["b"]})) as Hb
    by decide_by_computation.
  split; [vm_compute; reflexivity|]. split; [exact Hb|].
  eapply (exclude_only_affects_required Reference.py_str Reference.field_json_schema
           (def "f" sig_int_a_b1) None (Some ∅) (Some {["b"]}) _ _ "b");
    [vm_compute; reflexivity | exact Hb].
Defined.

(** C6.  [def f(a: int, self: int = 0)], decorated, has [self] among the
    properties of its schema.  The call [f(a=1, self=2)] returns; the same
    call on the wrapper raises [TypeError], the keyword [self] colliding with
    the parameter [self] of [__call__].  The wrapper of an [async def] with
    that signature raises in the same way, and at call time. *)
Theorem wrapper_rejects_keyword_self :
  ∃ st w keys sta wa,
    ref_wrap None (Some ∅) (Some ∅) (def "f" sig_a_self) = (st, Ok w) ∧
    schema_properties (gpt_parameters (gpt_func w)) = Some keys ∧
    "self" ∈ keys ∧
    call (def (E:=void1) "f" sig_a_self) [] [("a", PyInt 1); ("self", PyInt 2)]
    = Ok (Value PyNone) ∧
    wrapper_call w [] [("a", PyInt 1); ("self", PyInt 2)] = Raise TypeError ∧
    ref_wrap None (Some ∅) (Some ∅) (async_def "f" sig_a_self) = (sta, Ok wa) ∧
    wrapper_call wa [] [("a", PyInt 1); ("self", PyInt 2)] = Raise TypeError.
Proof.
  eexists _, _, _, _, _. split_and!.
  - vm_compute. reflexivity.
  - vm_compute. reflexivity.
  - decide_by_computation.
  - reflexivity.
  - reflexivity.
  - vm_compute. reflexivity.
  - reflexivity.
Qed.

(** C3.  [def f(a: Annotated[int, "x", "y"] = 1, *, b)] has the analysed
    parameter [b] without default.  With [include] and [exclude] at [None]
    the decorator never reaches the membership test for [b]: line 46 unpacks
    the three values [get_args] returns for [a] into two names and raises
    [ValueError], where the claim has a [TypeError]. *)
Theorem default_config_raises_value_error :
  analyzed 0 sig_two_metadata = sig_two_metadata ∧
  existsb (λ q, negb (has_default q.2)) (analyzed 0 sig_two_metadata) = true ∧
  ref_wrap None None None (def "f" sig_two_metadata) = (None, Raise ValueError).
Proof. split_and!; reflexivity. Qed.

Lemma overlap_raises_first_witness :
  (({["b"]} : gset string) ∩ {["b"]}) ≠ ∅ ∧
  ref_wrap None (Some {["b"]}) (Some {["b"]}) (def "f" sig_int_a_b1)
  = (Some {["b"]}, Raise ValueError).
Proof.
  assert ((({["b"]} : gset string) ∩ {["b"]}) ≠ ∅) as H
    by decide_by_computation.
  split; [exact H|].
  exact (overlap_raises_first Reference.py_str Reference.field_json_schema
           (def "f" sig_int_a_b1) None {["b"]} {["b"]} H).
Defined.

(** C8 as written fails.  [def f(a: int)] decorated with [include={"zz"},
    exclude={"zz"}]: [zz] is no parameter of [f], and the decorator raises
    the [ValueError] of the overlap, not the not-found error. *)
Lemma unknown_include_raises_value_error :
  "zz" ∈ ({["zz"]} : gset string) ∧
  ("zz" ∉ dict_keys sig_int_a) ∧
  ref_wrap None (Some {["zz"]}) (Some {["zz"]}) (def "f" sig_int_a)
  = (Some {["zz"]}, Raise ValueError).
Proof.
  split_and!.
  - decide_by_computation.
  - decide_by_computation.
  - vm_compute. reflexivity.
Qed.

Lemma unknown_include_raises_witness :
  "zz" ∈ ({["zz"]} : gset string) ∧
  ("zz" ∉ dict_keys (parameters (def (E:=void1) "f" sig_int_a))) ∧
  ¬ overlap (Some {["zz"]}) (Some {["b"]}) ∧
  ref_wrap None (Some {["zz"]}) (Some {["b"]}) (def "f" sig_int_a)
  = (Some {["zz"]}, Raise AttributeError).
Proof.
  assert ("zz" ∈ ({["zz"]} : gset string)) as H1
    by decide_by_computation.
  assert ("zz" ∉ dict_keys (parameters (def (E:=void1) "f" sig_int_a))) as H2
    by decide_by_computation.
  assert (¬ overlap (Some {["zz"]}) (Some {["b"]})) as H3
    by decide_by_computation.
  split_and!; [exact H1 | exact H2 | exact H3 |].
  exact (unknown_include_raises Reference.py_str Reference.field_json_schema
           (def "f" sig_int_a) None {["zz"]} (Some {["b"]}) "zz" H1 H2 H3).
Defined.

Lemma enum_emitted_as_literal_witness :
  ∃ st w,
    ref_wrap None (Some ∅) (Some ∅) (def "f" sig_level) = (st, Ok w) ∧
    NoDup (dict_keys (parameters (def (E:=void1) "f" sig_level))) ∧
    parameters (def (E:=void1) "f" sig_level) !! 0 = Some ("level", positional None Level) ∧
    is_var (positional None Level) = false ∧
    p_annotation (positional None Level) = AnnEnum "Level" ["LOW"; "HIGH"] ∧
    ∃ props js,
      dict_get (gpt_parameters (gpt_func w)) "properties" = Some (PyDict props) ∧
      dict_get props "level" = Some js ∧
      Reference.field_json_schema "level" (AnnLiteral (PyStr <$> ["LOW"; "HIGH"]))
        (Field (default PyEllipsis (p_default (positional None Level))) PyNone) = Ok js.
Proof.
  eexists _, _.
  assert (NoDup (dict_keys (parameters (def (E:=void1) "f" sig_level)))) as Hnd
    by decide_by_computation.
  split; [vm_compute; reflexivity|].
  split; [exact Hnd|]. split; [reflexivity|]. split; [reflexivity|]. split; [reflexivity|].
  eapply (enum_emitted_as_literal Reference.py_str Reference.field_json_schema
           (def "f" sig_level) None (Some ∅) (Some ∅) _ _ 0 "level" (positional None Level)
           "Level" ["LOW"; "HIGH"]);
    [vm_compute; reflexivity | exact Hnd | reflexivity | reflexivity | reflexivity].
Defined.

(** C10.  [def f(self: Level, a: int)] with the enum class [Level]: the
    first parameter is named [self] and its annotation is a class, yet it is
    not skipped, [self] is a key of [properties]: line 27 asks whether the
    type of the annotation is exactly [type], and the type of an enum class
    is [EnumMeta]. *)
Theorem self_annotated_with_enum_class_is_kept :
  ∃ st w keys,
    ref_wrap None (Some ∅) (Some ∅) (def "f" sig_self_level) = (st, Ok w) ∧
    sig_self_level !! 0 = Some ("self", positional None Level) ∧
    is_class Level = true ∧
    schema_properties (gpt_parameters (gpt_func w)) = Some keys ∧
    "self" ∈ keys.
Proof.
  eexists _, _, _. split_and!.
  - vm_compute. reflexivity.
  - reflexivity.
  - reflexivity.
  - vm_compute. reflexivity.
  - decide_by_computation.
Qed.

(** The reference rendering of the enum parameter of the witness above: the
    closed choice of the member names. *)
Example level_is_rendered_as_a_choice :
  ∃ st w props,
    ref_wrap None (Some ∅) (Some ∅) (def "f" sig_level) = (st, Ok w) ∧
    dict_get (gpt_parameters (gpt_func w)) "properties" = Some (PyDict props) ∧
    dict_get props "level"
    = Some (PyDict [("enum", PyList [PyStr "LOW"; PyStr "HIGH"]);
                    ("title", PyStr "Level");
                    ("type", PyStr "string")]).
Proof. eexists _, _, _. split_and!; vm_compute; reflexivity. Qed.

(** ** Further facts about the loop *)

Lemma elem_of_undefaulted idx ps exc x :
  x ∈ undefaulted idx ps exc ↔
  ∃ p, (x, p) ∈ analyzed idx ps ∧ has_default p = false ∧ x ∉ exc.
Proof.
  unfold undefaulted. rewrite elem_of_list_to_set, list_elem_of_fmap. split.
  - intros ([n p] & -> & Hin). apply list_elem_of_filter in Hin as [[Hd Hx] Hin].
    by exists p.
  - intros (p & Hin & Hd & Hx). exists (x, p). split; [done|].
    by apply list_elem_of_filter.
Qed.

Lemma dict_keys_set_fresh {V} (d : list (string * V)) k v :
  k ∉ dict_keys d → dict_keys (dict_set d k v) = (dict_keys d ++ [k])%list.
Proof.
  induction d as [|[k0 v0] d IH]; simpl; [done|].
  intros Hk. apply not_elem_of_cons in Hk as [Hne Hk].
  rewrite decide_False by done. simpl. f_equal. by apply IH.
Qed.

Lemma dict_set_elem_of {V} (d : list (string * V)) k v x :
  x ∈ dict_set d k v → x = (k, v) ∨ x ∈ d.
Proof.
  induction d as [|[k0 v0] d IH]; simpl.
  - intros H. apply list_elem_of_singleton in H. by left.
  - case_decide; rewrite !elem_of_cons; naive_solver.
Qed.

Section LoopFacts.

Variable py_str : pyval -> string.

(** The set a returning loop leaves behind, exactly. *)
Lemma analyze_store_exact idx ps exclude props s st' props' :
  analyze py_str idx ps exclude props (Some s) = (st', Ok props') →
  st' = Some (s ∪ undefaulted idx ps (default ∅ exclude)).
Proof.
  revert idx props s. induction ps as [|[n q] ps IH]; intros idx props s H.
  - injection H as <- <-. f_equal. unfold undefaulted. simpl. set_solver.
  - apply analyze_ok_inv in H.
    destruct (is_receiver idx n q || is_var q) eqn:Hskip.
    { rewrite (IH _ _ _ H). f_equal. unfold undefaulted. simpl. by rewrite Hskip. }
    destruct H as (st1 & entry & Hmark & _ & H).
    assert (∀ x, x ∈ undefaulted idx ((n, q) :: ps) (default ∅ exclude) ↔
                 (x = n ∧ has_default q = false ∧ n ∉ default ∅ exclude)
                 ∨ x ∈ undefaulted (S idx) ps (default ∅ exclude)) as Hcons.
    { intros x. rewrite !elem_of_undefaulted. simpl. rewrite Hskip. split.
      - intros (p & Hin & Hd & Hx). apply elem_of_cons in Hin as [[= -> ->]|Hin].
        + by left.
        + right. by exists p.
      - intros [(-> & Hd & Hx)|(p & Hin & Hd & Hx)].
        + exists q. split_and!; [apply list_elem_of_here|done..].
        + exists p. split_and!; [by apply list_elem_of_further|done..]. }
    rewrite mark_required_run in Hmark.
    destruct (has_default q) eqn:Hd.
    { injection Hmark as <-. rewrite (IH _ _ _ H). f_equal.
      apply set_eq. intros x. rewrite !elem_of_union, Hcons. naive_solver. }
    destruct (bool_decide (n ∈ s)) eqn:Hn.
    { injection Hmark as <-. apply bool_decide_eq_true in Hn.
      rewrite (IH _ _ _ H). f_equal.
      apply set_eq. intros x. rewrite !elem_of_union, Hcons. naive_solver. }
    destruct exclude as [exc|]; [|done].
    destruct (bool_decide (n ∈ exc)) eqn:Hx.
    { injection Hmark as <-. apply bool_decide_eq_true in Hx.
      rewrite (IH _ _ _ H). f_equal.
      apply set_eq. intros x. rewrite !elem_of_union, Hcons. simpl. naive_solver. }
    injection Hmark as <-. apply bool_decide_eq_false in Hx.
    rewrite (IH _ _ _ H). f_equal.
    apply set_eq. intros x. rewrite !elem_of_union, Hcons, elem_of_singleton. simpl.
    naive_solver.
Qed.

(** What a returning loop needed of each analysed parameter. *)
Lemma analyze_ok_needs idx ps exclude props st st' props' n p :
  analyze py_str idx ps exclude props st = (st', Ok props') →
  (n, p) ∈ analyzed idx ps →
  is_ok (emit py_str p) = true ∧
  (has_default p = false → ∃ s, st = Some s ∧ (n ∈ s ∨ is_Some exclude)).
Proof.
  revert idx props st. induction ps as [|[n0 q] ps IH]; intros idx props st H Hin.
  - inversion Hin.
  - apply analyze_ok_inv in H. simpl analyzed in Hin.
    destruct (is_receiver idx n0 q || is_var q); [by eapply IH|].
    destruct H as (st1 & entry & Hmark & Hemit & H).
    rewrite mark_required_run in Hmark.
    apply elem_of_cons in Hin as [[= -> ->]|Hin].
    + split; [by rewrite Hemit|]. intros Hd. rewrite Hd in Hmark.
      destruct st as [s|]; [|done]. exists s. split; [done|].
      destruct (bool_decide (n0 ∈ s)) eqn:Hn; [left; by apply bool_decide_eq_true in Hn|].
      destruct exclude; [by right|done].
    + destruct (IH _ _ _ H Hin) as [Hok Hneed]. split; [done|].
      intros Hd. destruct (Hneed Hd) as (s1 & -> & Hs1).
      destruct (has_default q); [injection Hmark as ->; by exists s1|].
      destruct st as [s|]; [|done]. exists s. split; [done|].
      destruct (bool_decide (n0 ∈ s)); [injection Hmark as ->; done|].
      destruct exclude as [exc|]; [by right|done].
Qed.

(** With both sets given, the loop returns as soon as every annotation it
    meets unpacks; [P] is any property of the entries it stores. *)
Lemma analyze_succeeds (P : string * (annotation * FieldDef) → Prop) idx ps exc props s :
  Forall P props →
  (∀ n p, (n, p) ∈ analyzed idx ps → ∃ entry, emit py_str p = Ok entry ∧ P (n, entry)) →
  ∃ st' props', analyze py_str idx ps (Some exc) props (Some s) = (st', Ok props') ∧
                Forall P props'.
Proof.
  revert idx props s. induction ps as [|[n q] ps IH]; intros idx props s HP Hemit.
  - by exists (Some s), props.
  - rewrite analyze_cons. simpl analyzed in Hemit.
    destruct (is_receiver idx n q || is_var q); [by apply IH|].
    destruct (Hemit n q) as (entry & He & HPe); [apply list_elem_of_here|].
    rewrite He.
    assert (Forall P (dict_set props n entry)) as HP'.
    { apply Forall_forall. intros x Hx.
      apply dict_set_elem_of in Hx as [->|Hx]; [done|].
      by eapply Forall_forall in HP. }
    assert (∀ n' p', (n', p') ∈ analyzed (S idx) ps →
                     ∃ entry', emit py_str p' = Ok entry' ∧ P (n', entry')) as Hemit'.
    { intros n' p' Hin. apply Hemit. by apply list_elem_of_further. }
    rewrite mark_required_run.
    destruct (has_default q); [by apply IH|].
    destruct (bool_decide (n ∈ s)); [by apply IH|].
    destruct (bool_decide (n ∈ exc)); by apply IH.
Qed.

(** With distinct names, [properties] lists the analysed parameters in
    declaration order. *)
Lemma analyze_keys_order idx ps exclude props st st' props' :
  analyze py_str idx ps exclude props st = (st', Ok props') →
  NoDup (dict_keys props ++ dict_keys (analyzed idx ps)) →
  dict_keys props' = (dict_keys props ++ dict_keys (analyzed idx ps))%list.
Proof.
  revert idx props st. induction ps as [|[n q] ps IH]; intros idx props st H Hnd.
  - injection H as <- <-. simpl. by rewrite app_nil_r.
  - apply analyze_ok_inv in H. simpl analyzed in *.
    destruct (is_receiver idx n q || is_var q); [by eapply IH|].
    destruct H as (st1 & entry & _ & _ & H). simpl in *.
    assert (n ∉ dict_keys props) as Hfresh.
    { apply NoDup_app in Hnd as (_ & Hdis & _). intros Hn.
      apply (Hdis n Hn), list_elem_of_here. }
    rewrite (IH _ _ _ H); rewrite (dict_keys_set_fresh _ _ _ Hfresh).
    + by rewrite <- app_assoc.
    + by rewrite <- app_assoc.
Qed.

(** Without [exclude], the first parameter without default that [include]
    does not hold stops the loop, the set untouched. *)
Lemma analyze_exclude_None_raises idx ps props s pre n p post :
  analyzed idx ps = (pre ++ (n, p) :: post)%list → has_default p = false → n ∉ s →
  Forall (λ q, is_ok (emit py_str q.2) = true) pre →
  analyze py_str idx ps None props (Some s) = (Some s, Raise TypeError).
Proof.
  revert idx props pre. induction ps as [|[n0 q] ps IH]; intros idx props pre Hps Hd Hn Hall.
  - by destruct pre.
  - rewrite analyze_cons. simpl analyzed in Hps.
    destruct (_ || _); [by eapply IH|].
    rewrite mark_required_run.
    destruct pre as [|[n' q'] pre]; simpl in Hps.
    + injection Hps as -> -> _. rewrite Hd. by rewrite bool_decide_eq_false_2.
    + injection Hps as -> -> Hps. apply Forall_cons in Hall as [Hq Hall]. simpl in Hq.
      destruct (emit py_str q') as [entry|e]; [|done].
      destruct (has_default q'); [by eapply IH|].
      destruct (bool_decide (n' ∈ s)); [by eapply IH|done].
Qed.

(** With both sets given, the first annotation that fails to unpack ends
    the loop with its exception. *)
Lemma analyze_emit_raises idx ps exc props s pre n p post e :
  analyzed idx ps = (pre ++ (n, p) :: post)%list →
  Forall (λ q, is_ok (emit py_str q.2) = true) pre →
  emit py_str p = Raise e →
  (analyze py_str idx ps (Some exc) props (Some s)).2 = Raise e.
Proof.
  revert idx props s pre. induction ps as [|[n0 q] ps IH]; intros idx props s pre Hps Hall He.
  - by destruct pre.
  - rewrite analyze_cons. simpl analyzed in Hps.
    destruct (_ || _); [by eapply IH|].
    rewrite mark_required_run.
    destruct pre as [|[n' q'] pre]; simpl in Hps.
    + injection Hps as -> -> _. rewrite He.
      destruct (has_default p); [done|].
      destruct (bool_decide (n ∈ s)); [done|].
      by destruct (bool_decide (n ∈ exc)).
    + injection Hps as -> -> Hps. apply Forall_cons in Hall as [Hq Hall]. simpl in Hq.
      destruct (emit py_str q') as [entry|e']; [|done].
      destruct (has_default q'); [by eapply IH|].
      destruct (bool_decide (n' ∈ s)); [by eapply IH|].
      destruct (bool_decide (n' ∈ exc)); by eapply IH.
Qed.

End LoopFacts.

Lemma is_receiver_true_iff i name p :
  is_receiver i name p = true ↔
  i = 0 ∧ (name = "self" ∨ name = "cls") ∧
  (p_annotation p = AnnEmpty ∨ ∃ c, p_annotation p = AnnClass c).
Proof.
  unfold is_receiver. rewrite !andb_true_iff, bool_decide_eq_true, Nat.eqb_eq.
  rewrite !elem_of_cons, elem_of_nil.
  assert (type_is_type (p_annotation p) = true ↔
          p_annotation p = AnnEmpty ∨ ∃ c, p_annotation p = AnnClass c) as ->.
  { destruct (p_annotation p); simpl; split; try done; try naive_solver. }
  naive_solver.
Qed.

(** ** Further facts about the schema and the decorator *)

Section WrapFacts.

Context {E : Type -> Type}.
Variable py_str : pyval -> string.
Variable field_json_schema : string -> annotation -> FieldDef -> result pyval.

Lemma render_fields_succeeds props :
  Forall (λ e : string * (annotation * FieldDef),
            is_ok (field_json_schema e.1 e.2.1 e.2.2) = true) props →
  ∃ rendered, render_fields field_json_schema props = Ok rendered.
Proof.
  induction props as [|[n [a f]] props IH]; intros Hall; simpl; [by eexists|].
  apply Forall_cons in Hall as [Hhd Hall]. simpl in Hhd.
  destruct (field_json_schema n a f) as [js|e]; [|done].
  destruct (IH Hall) as [r ->]. by eexists.
Qed.

(** Whatever the outcome, the caller's set has at most grown, by names of
    analysed parameters that [exclude] does not hold. *)
Lemma convert_store ps include exclude st r :
  _convert_params_to_schema py_str field_json_schema ps include exclude = (st, r) →
  match include with
  | None => st = None
  | Some s =>
      ∃ s', st = Some s' ∧ s ⊆ s' ∧
        ∀ x, x ∈ s' → x ∉ s →
             x ∈ dict_keys (analyzed 0 ps) ∧ ∃ exc, exclude = Some exc ∧ x ∉ exc
  end.
Proof.
  assert (match include with
          | None => include = None
          | Some s =>
              ∃ s', include = Some s' ∧ s ⊆ s' ∧
                ∀ x, x ∈ s' → x ∉ s →
                     x ∈ dict_keys (analyzed 0 ps) ∧ ∃ exc, exclude = Some exc ∧ x ∉ exc
          end) as Hsame.
  { destruct include as [s|]; [|done]. exists s. split_and!; done. }
  unfold _convert_params_to_schema.
  destruct (truthy include && truthy exclude
            && bool_decide (default ∅ include ∩ default ∅ exclude ≠ ∅)).
  { unfold raise. by intros [= <- <-]. }
  destruct (bool_decide (set_Forall _ _)).
  2:{ unfold raise. by intros [= <- <-]. }
  unfold bind, lift, get, ret. cbv beta.
  destruct (analyze py_str 0 ps exclude [] include) as [st1 [props|e]] eqn:Han.
  - apply analyze_store in Han.
    destruct (model_json_schema field_json_schema props); by intros [= <- <-].
  - apply analyze_store in Han. by intros [= <- <-].
Qed.

Lemma wrap_convert (f : Callable E) description include exclude st r :
  gpt_callable_func py_str field_json_schema description include exclude f = (st, r) →
  ∃ r', _convert_params_to_schema py_str field_json_schema (parameters f) include exclude
        = (st, r').
Proof.
  unfold gpt_callable_func, _Wrapper__init__, _convert_to_gpt_func.
  destruct (_convert_params_to_schema _ _ _ _ _) as [st1 [schema|e]];
    intros [= <- <-]; by eexists.
Qed.

Lemma wrap_analyze (f : Callable E) description include exclude st w :
  gpt_callable_func py_str field_json_schema description include exclude f = (st, Ok w) →
  ∃ props rendered,
    analyze py_str 0 (parameters f) exclude [] include = (st, Ok props) ∧
    render_fields field_json_schema props = Ok rendered ∧
    dict_get (gpt_parameters (gpt_func w)) "properties" = Some (PyDict rendered).
Proof.
  intros H. apply wrap_ok_inv in H as (_ & _ & H).
  apply convert_ok_inv in H as (_ & _ & props & rendered & Han & Hr & Hp & _).
  by exists props, rendered.
Qed.

(** The property of an analysed parameter is what the schema library makes
    of the type and field the loop emitted for it. *)
Lemma wrap_property (f : Callable E) description include exclude st w i n p :
  gpt_callable_func py_str field_json_schema description include exclude f = (st, Ok w) →
  NoDup (dict_keys (parameters f)) →
  parameters f !! i = Some (n, p) → is_receiver i n p = false → is_var p = false →
  ∃ props a fld js,
    dict_get (gpt_parameters (gpt_func w)) "properties" = Some (PyDict props) ∧
    emit py_str p = Ok (a, fld) ∧
    field_json_schema n a fld = Ok js ∧
    dict_get props n = Some js.
Proof.
  intros Hw Hnd Hi Hr Hv.
  destruct (wrap_analyze _ _ _ _ _ _ Hw) as (props & rendered & Han & Hren & Hp).
  assert ((n, p) ∈ analyzed 0 (parameters f)) as Hana
    by (apply analyzed_elem_of; by exists i).
  destruct (analyze_get _ _ _ _ _ _ _ _ _ _ Han (analyzed_keys_NoDup _ _ Hnd) Hana)
    as ([a fld] & Hemit & Hget).
  destruct (render_fields_get _ _ _ _ _ _ Hren Hget) as (js & Hjs & Hrg).
  by exists rendered, a, fld, js.
Qed.

End WrapFacts.

(** ** Further properties of the decorator *)

Section Properties.

Context {E : Type -> Type}.
Variable py_str : pyval -> string.
Variable field_json_schema : string -> annotation -> FieldDef -> result pyval.

Abbreviation decorate := (gpt_callable_func (E:=E) py_str field_json_schema).

(** X1.  When [include] is a set and the wrap succeeds, [required] is that
    set together with the analysed parameters that have no default and are
    not in [exclude], and nothing else; the caller's [include] object has
    been updated in place to hold exactly these names. *)
Theorem required_is_include_and_undefaulted (f : Callable E) description inc exclude st w :
  decorate description (Some inc) exclude f = (st, Ok w) →
  st = Some (inc ∪ undefaulted 0 (parameters f) (default ∅ exclude)) ∧
  dict_get (gpt_parameters (gpt_func w)) "required"
  = Some (PySet (inc ∪ undefaulted 0 (parameters f) (default ∅ exclude))).
Proof.
  intros Hw. destruct (wrap_required _ _ _ _ _ _ _ _ Hw) as [Hreq _].
  destruct (wrap_analyze _ _ _ _ _ _ _ _ Hw) as (props & rendered & Han & _).
  apply analyze_store_exact in Han. subst st. by rewrite Hreq.
Qed.

(** X2.  With [include] left at [None] a wrap succeeds only for a callable
    whose analysed parameters all have defaults, and then [required] is
    [None], not an empty collection. *)
Theorem include_none_gives_required_none (f : Callable E) description exclude st w :
  decorate description None exclude f = (st, Ok w) →
  dict_get (gpt_parameters (gpt_func w)) "required" = Some PyNone ∧
  Forall (λ np, has_default np.2 = true) (analyzed 0 (parameters f)).
Proof.
  intros Hw. destruct (wrap_required _ _ _ _ _ _ _ _ Hw) as [Hreq _].
  destruct (wrap_analyze _ _ _ _ _ _ _ _ Hw) as (props & rendered & Han & _).
  split.
  - apply analyze_store in Han. by subst st.
  - apply Forall_forall. intros [n p] Hin. simpl.
    destruct (analyze_ok_needs _ _ _ _ _ _ _ _ _ _ Han Hin) as [_ Hneed].
    destruct (has_default p); [done|]. by destruct Hneed as (s & ? & _).
Qed.

(** X3.  With [include] and [exclude] both given as sets that share no
    member, every name of [include] a parameter, and every analysed
    parameter's annotation unpacking to a field the schema library accepts,
    the wrap succeeds, and it leaves [include] holding the required names. *)
Theorem decorate_succeeds (f : Callable E) description (inc exc : gset string) :
  set_Forall (λ each, each ∈ dict_keys (parameters f)) inc →
  ¬ overlap (Some inc) (Some exc) →
  forallb (renders py_str field_json_schema) (analyzed 0 (parameters f)) = true →
  ∃ w, decorate description (Some inc) (Some exc) f
       = (Some (inc ∪ undefaulted 0 (parameters f) exc), Ok w).
Proof.
  intros Hinc Hov Hren.
  set (P := λ e : string * (annotation * FieldDef),
              is_ok (field_json_schema e.1 e.2.1 e.2.2) = true).
  destruct (analyze_succeeds py_str P 0 (parameters f) exc [] inc) as (st' & props & Han & HP).
  { constructor. }
  { intros n p Hin. rewrite forallb_forall in Hren.
    specialize (Hren (n, p)). unfold renders in Hren. simpl in Hren.
    destruct (emit py_str p) as [[a fld]|e].
    - exists (a, fld). split; [done|]. apply Hren. by apply list_elem_of_In.
    - exfalso. assert (false = true) by (apply Hren; by apply list_elem_of_In). done. }
  pose proof (analyze_store_exact _ _ _ _ _ _ _ _ Han) as ->.
  destruct (render_fields_succeeds _ _ HP) as [rendered Hr].
  unfold gpt_callable_func, _Wrapper__init__, _convert_to_gpt_func, _convert_params_to_schema.
  rewrite (bool_decide_eq_false_2 (default ∅ (Some inc) ∩ default ∅ (Some exc) ≠ ∅))
    by (intros H; by apply Hov).
  rewrite !andb_false_r.
  rewrite (bool_decide_eq_true_2 _ Hinc).
  unfold bind, lift, get, ret, model_json_schema. cbv beta.
  simpl in Han. rewrite Han, Hr. by eexists.
Qed.

(** X4.  A wrap that succeeds got past every analysed parameter: each one's
    annotation unpacked, and for each one without default [include] was a
    set, and either it held the name or [exclude] was a set too. *)
Theorem decorate_success_needs (f : Callable E) description include exclude st w i n p :
  decorate description include exclude f = (st, Ok w) →
  analyzed 0 (parameters f) !! i = Some (n, p) →
  is_ok (emit py_str p) = true ∧
  (has_default p = false → ∃ inc, include = Some inc ∧ (n ∈ inc ∨ is_Some exclude)).
Proof.
  intros Hw Hi.
  destruct (wrap_analyze _ _ _ _ _ _ _ _ Hw) as (props & rendered & Han & _).
  eapply analyze_ok_needs; [exact Han|]. by eapply list_elem_of_lookup_2.
Qed.

(** X5.  For a signature with distinct names, the keys of [properties] are
    the names of the analysed parameters, in declaration order. *)
Theorem properties_in_declaration_order (f : Callable E) description include exclude st w :
  decorate description include exclude f = (st, Ok w) →
  NoDup (dict_keys (parameters f)) →
  schema_properties (gpt_parameters (gpt_func w))
  = Some (dict_keys (analyzed 0 (parameters f))).
Proof.
  intros Hw Hnd.
  destruct (wrap_analyze _ _ _ _ _ _ _ _ Hw) as (props & rendered & Han & Hr & Hp).
  unfold schema_properties. rewrite Hp. f_equal.
  rewrite (render_fields_keys _ _ _ Hr).
  rewrite (analyze_keys_order _ _ _ _ _ _ _ _ Han); [done|].
  simpl. by apply analyzed_keys_NoDup.
Qed.

(** X6.  A variadic parameter, positional or keyword, is never a key of
    [properties]. *)
Theorem variadic_never_a_property (f : Callable E) description include exclude st w i n p :
  decorate description include exclude f = (st, Ok w) →
  NoDup (dict_keys (parameters f)) →
  parameters f !! i = Some (n, p) → is_var p = true →
  ∃ keys, schema_properties (gpt_parameters (gpt_func w)) = Some keys ∧ n ∉ keys.
Proof.
  intros Hw Hnd Hi Hv.
  destruct (wrap_properties _ _ _ _ _ _ _ _ Hw) as (keys & Hk & Hiff).
  exists keys. split; [done|].
  rewrite Hiff, (analyzed_key_iff _ _ _ _ Hnd Hi), Hv. naive_solver.
Qed.

(** X7.  A parameter annotated with a pydantic [FieldInfo] is described by
    the [FieldInfo]'s own type, default and description, whatever default
    the parameter itself declares. *)
Theorem field_info_overrides_default (f : Callable E) description include exclude st w
    i n p d s T :
  decorate description include exclude f = (st, Ok w) →
  NoDup (dict_keys (parameters f)) →
  parameters f !! i = Some (n, p) → is_var p = false →
  p_annotation p = AnnFieldInfo d s T →
  ∃ props js,
    dict_get (gpt_parameters (gpt_func w)) "properties" = Some (PyDict props) ∧
    dict_get props n = Some js ∧
    field_json_schema n T (Field d s) = Ok js.
Proof.
  intros Hw Hnd Hi Hv Hann.
  destruct (wrap_property _ _ _ _ _ _ _ _ _ _ _ Hw Hnd Hi) as (props & a & fld & js & Hp & He & Hjs & Hg);
    [unfold is_receiver; rewrite Hann; simpl; by rewrite andb_false_r | done |].
  unfold emit in He. rewrite Hann in He. injection He as <- <-.
  by exists props, js.
Qed.

(** X8.  A parameter annotated [Annotated[base, m]] is described by [base]
    (an enum class turned into the literal of its member names), the
    parameter's default, and as description [m] itself, or the string of the
    first element of [m] when [m] is a tuple. *)
Theorem annotated_gives_description (f : Callable E) description include exclude st w
    i n p base m :
  decorate description include exclude f = (st, Ok w) →
  NoDup (dict_keys (parameters f)) →
  parameters f !! i = Some (n, p) → is_var p = false →
  p_annotation p = AnnAnnotated base [m] →
  ∃ props js desc,
    dict_get (gpt_parameters (gpt_func w)) "properties" = Some (PyDict props) ∧
    dict_get props n = Some js ∧
    metadata_description py_str m = Some desc ∧
    field_json_schema n (enum_to_literal base)
      (Field (default PyEllipsis (p_default p)) desc) = Ok js.
Proof.
  intros Hw Hnd Hi Hv Hann.
  destruct (wrap_property _ _ _ _ _ _ _ _ _ _ _ Hw Hnd Hi) as (props & a & fld & js & Hp & He & Hjs & Hg);
    [unfold is_receiver; rewrite Hann; simpl; by rewrite andb_false_r | done |].
  unfold emit, unpack_annotated in He. rewrite Hann in He.
  destruct m as [| | | | |[|first rest]| | | |]; simpl in He; try discriminate;
    injection He as <- <-; eexists props, js, _; split_and!; try done.
Qed.

(** X9.  Whatever the outcome, success or any exception, the decorator
    never removes a name from the caller's [include] set and never turns
    [None] into a set; what it adds are names of analysed parameters that
    [exclude] does not hold. *)
Theorem include_only_grows (f : Callable E) description include exclude st r :
  decorate description include exclude f = (st, r) →
  match include with
  | None => st = None
  | Some inc =>
      ∃ inc', st = Some inc' ∧ inc ⊆ inc' ∧
        ∀ x, x ∈ inc' → x ∉ inc →
             x ∈ dict_keys (analyzed 0 (parameters f)) ∧ x ∉ default ∅ exclude
  end.
Proof.
  intros Hw. apply wrap_convert in Hw as [r' Hc]. apply convert_store in Hc.
  destruct include as [inc|]; [|done].
  destruct Hc as (inc' & -> & Hsub & Hnew). exists inc'. split_and!; [done..|].
  intros x Hx Hnx. destruct (Hnew x Hx Hnx) as (Hk & exc & -> & Hexc). done.
Qed.

(** X10.  Two functions decorated one after the other with the same
    [include] object: when both wraps succeed, every name required of the
    first function is a parameter of the second and is required of it too. *)
Theorem shared_include_accumulates (f g : Callable E) d1 d2 include exc1 exc2 st1 st2 w1 w2 x :
  decorate d1 include exc1 f = (st1, Ok w1) →
  decorate d2 st1 exc2 g = (st2, Ok w2) →
  in_required x (gpt_parameters (gpt_func w1)) →
  x ∈ dict_keys (parameters g) ∧ in_required x (gpt_parameters (gpt_func w2)).
Proof.
  intros H1 H2.
  destruct (wrap_required _ _ _ _ _ _ _ _ H1) as [Hreq1 _].
  destruct (wrap_required _ _ _ _ _ _ _ _ H2) as [Hreq2 _].
  unfold in_required. rewrite Hreq1, Hreq2.
  destruct st1 as [s1|]; simpl; [|done]. intros Hx.
  pose proof H2 as H2'. apply wrap_convert in H2' as [r' Hc]. apply convert_store in Hc.
  destruct Hc as (s2 & -> & Hsub & _). simpl.
  apply wrap_ok_inv in H2 as (_ & _ & H2).
  apply convert_ok_inv in H2 as (_ & Hinc & _).
  split; [by apply Hinc | by apply Hsub].
Qed.

(** X11.  The attached schema has the three entries [name], [description]
    and [parameters]: the name is the function's [__name__]; the
    description is the decorator's [description] unless that is missing or
    empty, else the docstring unless that is missing or empty, else the
    name. *)
Theorem schema_name_and_description (f : Callable E) description include exclude st w :
  decorate description include exclude f = (st, Ok w) →
  ∃ doc,
    gpt_func w = PyDict [("name", PyStr (__name__ f));
                         ("description", PyStr doc);
                         ("parameters", PyDict (gpt_parameters (gpt_func w)))] ∧
    (∀ d, description = Some d → d ≠ "" → doc = d) ∧
    (description = None ∨ description = Some "" →
     (∀ d, __doc__ f = Some d → d ≠ "" → doc = d) ∧
     (__doc__ f = None ∨ __doc__ f = Some "" → doc = __name__ f)).
Proof.
  unfold gpt_callable_func, _Wrapper__init__, _convert_to_gpt_func.
  destruct (_convert_params_to_schema _ _ _ _ _) as [st1 [schema|e]]; [|done].
  intros [= <- <-]. eexists. split; [reflexivity|]. unfold str_or. split.
  - intros d -> Hd. by rewrite decide_False.
  - intros [->| ->]; simpl; (split; [intros d -> Hd; by rewrite decide_False
                                    | intros [->| ->]; done]).
Qed.

(** X12.  With [include] a set of parameter names and [exclude] left at
    [None], the decorator raises [TypeError] as soon as an analysed parameter
    has no default and is not in [include], provided the annotations before
    it unpack; the [include] set is left as it was. *)
Theorem exclude_none_raises (f : Callable E) description (inc : gset string) pre n p post :
  set_Forall (λ each, each ∈ dict_keys (parameters f)) inc →
  analyzed 0 (parameters f) = (pre ++ (n, p) :: post)%list →
  has_default p = false → n ∉ inc →
  forallb (λ q, is_ok (emit py_str q.2)) pre = true →
  decorate description (Some inc) None f = (Some inc, Raise TypeError).
Proof.
  intros Hinc Hps Hd Hn Hpre. apply wrap_raise.
  unfold _convert_params_to_schema.
  change (truthy None) with false. rewrite andb_false_r. cbn [andb].
  change (default ∅ (Some inc)) with inc.
  rewrite (bool_decide_eq_true_2 _ Hinc).
  unfold bind. cbv beta.
  rewrite (analyze_exclude_None_raises py_str 0 (parameters f) [] inc pre n p post); try done.
  apply Forall_forall. intros q Hq. rewrite forallb_forall in Hpre.
  apply Hpre. by apply list_elem_of_In.
Qed.

(** X13.  A wrapper forwards to the callable it was made from, for every
    argument list without a keyword argument named [self].  For a
    synchronous callable, calling the wrapper is then calling the callable:
    the same value or the same exception, at once.  For an asynchronous one,
    calling the wrapper only hands back a coroutine, and awaiting that
    coroutine behaves, step for step, as awaiting a direct call with the
    same arguments does.  A keyword argument named [self] makes the call on
    either kind of wrapper raise [TypeError] at once. *)
Theorem wrapper_forwards (f : Callable E) description include exclude st w args kwargs :
  decorate description include exclude f = (st, Ok w) →
  func w = f ∧
  ("self" ∈ dict_keys kwargs → wrapper_call w args kwargs = Raise TypeError) ∧
  ("self" ∉ dict_keys kwargs →
   (iscoroutinefunction f = false → wrapper_call w args kwargs = call f args kwargs) ∧
   (iscoroutinefunction f = true →
    ∃ c, wrapper_call w args kwargs = Ok (Coroutine c) ∧
         c ≅ await_call (call f args kwargs))).
Proof.
  intros Hw. apply wrap_ok_inv in Hw as (Hf & Hcls & _).
  unfold wrapper_call. rewrite Hcls. split_and!; [done| |].
  - intros Hself.
    destruct (iscoroutinefunction f); unfold _Wrapper__call__, _AsyncWrapper__call__;
      by rewrite (bool_decide_eq_true_2 _ Hself).
  - intros Hself. split; intros Hco; rewrite Hco;
      unfold _Wrapper__call__, _AsyncWrapper__call__;
      rewrite (bool_decide_eq_false_2 _ Hself), Hf; [done|].
    eexists. split; [done|].
    unfold await_call. destruct (call f args kwargs) as [r|e]; [|reflexivity].
    unfold async_bind.
    rewrite <- (bind_ret_r (await r)) at 2.
    apply eqit_bind; [reflexivity|]. by intros [v|e].
Qed.

(** X14.  In every schema the decorator returns, for a signature with
    distinct names and positions counted from zero, a parameter is a key of
    [properties] exactly when it is not variadic and is not the skipped
    receiver; the skipped receiver is the parameter at position zero, named
    exactly [self] or [cls], whose annotation is missing or is a class whose
    type is [type] itself.  So a first parameter with any other name, or
    with any other annotation, and every later parameter are kept. *)
Theorem receiver_skip (f : Callable E) description include exclude st w :
  decorate description include exclude f = (st, Ok w) →
  NoDup (dict_keys (parameters f)) →
  ∃ keys, schema_properties (gpt_parameters (gpt_func w)) = Some keys ∧
    ∀ i name p, parameters f !! i = Some (name, p) →
      (name ∈ keys ↔
       is_var p = false ∧
       ¬ (i = 0 ∧ (name = "self" ∨ name = "cls") ∧
          (p_annotation p = AnnEmpty ∨ ∃ c, p_annotation p = AnnClass c))).
Proof.
  intros Hw Hnd.
  destruct (wrap_properties _ _ _ _ _ _ _ _ Hw) as (keys & Hk & Hiff).
  exists keys. split; [done|]. intros i name p Hi.
  rewrite Hiff, (analyzed_key_iff _ _ _ _ Hnd Hi), <- is_receiver_true_iff.
  destruct (is_receiver i name p); naive_solver.
Qed.

(** X15.  With [include] and [exclude] both left at [None], the decorator
    raises the [TypeError] of the membership test against [None] as soon as
    an analysed parameter has no default, provided the annotations of the
    analysed parameters before it unpack. *)
Theorem default_config_raises (f : Callable E) description pre name p post :
  analyzed 0 (parameters f) = (pre ++ (name, p) :: post)%list →
  has_default p = false →
  forallb (λ q, is_ok (emit py_str q.2)) pre = true →
  decorate description None None f = (None, Raise TypeError).
Proof.
  intros Hps Hd Hpre. apply wrap_raise. unfold _convert_params_to_schema.
  change (truthy None) with false. cbn [andb].
  rewrite bool_decide_eq_true_2 by (intros x Hx; set_solver).
  unfold bind. cbv beta.
  destruct (analyze_None_raises py_str 0 (parameters f) None [] pre name p post Hps Hd)
    as [_ Hty].
  rewrite Hty; [done|].
  apply Forall_forall. intros q Hq. rewrite forallb_forall in Hpre.
  apply Hpre. by apply list_elem_of_In.
Qed.

(** X16.  With [include] and [exclude] given as sets that pass the two
    checks, the first analysed parameter whose [Annotated] annotation does
    not carry exactly one metadata value makes the decorator raise
    [ValueError]; one whose only metadata value is the empty tuple makes it
    raise [IndexError]. *)
Theorem annotated_unpack_failure_raises (f : Callable E) description (inc exc : gset string)
    pre n p post base metadata :
  set_Forall (λ each, each ∈ dict_keys (parameters f)) inc →
  ¬ overlap (Some inc) (Some exc) →
  analyzed 0 (parameters f) = (pre ++ (n, p) :: post)%list →
  forallb (λ q, is_ok (emit py_str q.2)) pre = true →
  p_annotation p = AnnAnnotated base metadata →
  (length metadata ≠ 1 →
   (decorate description (Some inc) (Some exc) f).2 = Raise ValueError) ∧
  (metadata = [PyTuple []] →
   (decorate description (Some inc) (Some exc) f).2 = Raise IndexError).
Proof.
  intros Hinc Hov Hps Hpre Hann.
  assert (∀ e, emit py_str p = Raise e →
               (decorate description (Some inc) (Some exc) f).2 = Raise e) as Hraise.
  { intros e He.
    assert (Forall (λ q : string * PyParameter, is_ok (emit py_str q.2) = true) pre) as Hall.
    { apply Forall_forall. intros q Hq. rewrite forallb_forall in Hpre.
      apply Hpre. by apply list_elem_of_In. }
    pose proof (analyze_emit_raises py_str 0 (parameters f) exc [] inc pre n p post e
                  Hps Hall He) as Han.
    unfold gpt_callable_func, _Wrapper__init__, _convert_to_gpt_func,
      _convert_params_to_schema.
    rewrite (bool_decide_eq_false_2 (default ∅ (Some inc) ∩ default ∅ (Some exc) ≠ ∅))
      by (intros H; by apply Hov).
    rewrite !andb_false_r.
    rewrite (bool_decide_eq_true_2 _ Hinc).
    unfold bind. cbv beta.
    destruct (analyze py_str 0 (parameters f) (Some exc) [] (Some inc)) as [st1 [props|e1]];
      simpl in Han; [done|]. by injection Han as ->. }
  split.
  - intros Hlen. apply Hraise. unfold emit, unpack_annotated. rewrite Hann.
    destruct metadata as [|m [|m' ms]];
      [done | by simpl in Hlen | by destruct m as [| | | | |[|? ?]| | | |]].
  - intros ->. apply Hraise. unfold emit, unpack_annotated. by rewrite Hann.
Qed.

End Properties.

(** ** The further properties on concrete callables *)

Lemma required_is_include_and_undefaulted_witness :
  ∃ st w,
    ref_wrap None (Some {["b"]}) (Some ∅) (def "f" sig_int_a_b1) = (st, Ok w) ∧
    (st = Some ({["b"]} ∪ undefaulted 0 (parameters (def (E:=void1) "f" sig_int_a_b1))
                            (default ∅ (Some ∅))) ∧
     dict_get (gpt_parameters (gpt_func w)) "required"
     = Some (PySet ({["b"]} ∪ undefaulted 0 (parameters (def (E:=void1) "f" sig_int_a_b1))
                                  (default ∅ (Some ∅))))).
Proof.
  eexists _, _. split; [vm_compute; reflexivity|].
  eapply (required_is_include_and_undefaulted Reference.py_str Reference.field_json_schema
            (def "f" sig_int_a_b1) None {["b"]} (Some ∅)).
  vm_compute. reflexivity.
Defined.

Lemma include_none_gives_required_none_witness :
  ∃ st w,
    ref_wrap None None None (def "f" sig_int_a1) = (st, Ok w) ∧
    (dict_get (gpt_parameters (gpt_func w)) "required" = Some PyNone ∧
     Forall (λ np : string * PyParameter, has_default np.2 = true)
       (analyzed 0 (parameters (def (E:=void1) "f" sig_int_a1)))).
Proof.
  eexists _, _. split; [vm_compute; reflexivity|].
  eapply (include_none_gives_required_none Reference.py_str Reference.field_json_schema
            (def "f" sig_int_a1) None None).
  vm_compute. reflexivity.
Defined.

Lemma decorate_succeeds_witness :
  set_Forall (λ each, each ∈ dict_keys (parameters (def (E:=void1) "f" sig_int_a_b1)))
    ({["b"]} : gset string) ∧
  ¬ overlap (Some {["b"]}) (Some ∅) ∧
  forallb (renders Reference.py_str Reference.field_json_schema)
    (analyzed 0 (parameters (def (E:=void1) "f" sig_int_a_b1))) = true ∧
  ∃ w, ref_wrap None (Some {["b"]}) (Some ∅) (def "f" sig_int_a_b1)
       = (Some ({["b"]} ∪ undefaulted 0 (parameters (def (E:=void1) "f" sig_int_a_b1)) ∅),
          Ok w).
Proof.
  assert (set_Forall (λ each, each ∈ dict_keys (parameters (def (E:=void1) "f" sig_int_a_b1)))
            ({["b"]} : gset string)) as H1 by decide_by_computation.
  assert (¬ overlap (Some {["b"]}) (Some ∅)) as H2 by decide_by_computation.
  assert (forallb (renders Reference.py_str Reference.field_json_schema)
            (analyzed 0 (parameters (def (E:=void1) "f" sig_int_a_b1))) = true) as H3
    by (vm_compute; reflexivity).
  split_and!; [exact H1 | exact H2 | exact H3 |].
  exact (decorate_succeeds Reference.py_str Reference.field_json_schema
           (def "f" sig_int_a_b1) None {["b"]} ∅ H1 H2 H3).
Defined.

Lemma decorate_success_needs_witness :
  ∃ st w,
    ref_wrap None (Some ∅) (Some ∅) (def "f" sig_int_a_b1) = (st, Ok w) ∧
    analyzed 0 (parameters (def (E:=void1) "f" sig_int_a_b1)) !! 0
    = Some ("a", positional None (AnnClass "int")) ∧
    (is_ok (emit Reference.py_str (positional None (AnnClass "int"))) = true ∧
     (has_default (positional None (AnnClass "int")) = false →
      ∃ inc : gset string,
        Some ∅ = Some inc ∧ ("a" ∈ inc ∨ is_Some (Some (∅ : gset string))))).
Proof.
  eexists _, _. split; [vm_compute; reflexivity|]. split; [reflexivity|].
  eapply (decorate_success_needs Reference.py_str Reference.field_json_schema
            (def (E:=void1) "f" sig_int_a_b1) None (Some ∅) (Some ∅) _ _ 0 "a"
            (positional None (AnnClass "int")));
    [vm_compute; reflexivity | reflexivity].
Defined.

Lemma properties_in_declaration_order_witness :
  ∃ st w,
    ref_wrap None (Some ∅) (Some ∅) (def "f" sig_variadic) = (st, Ok w) ∧
    NoDup (dict_keys (parameters (def (E:=void1) "f" sig_variadic))) ∧
    schema_properties (gpt_parameters (gpt_func w))
    = Some (dict_keys (analyzed 0 (parameters (def (E:=void1) "f" sig_variadic)))).
Proof.
  eexists _, _.
  assert (NoDup (dict_keys (parameters (def (E:=void1) "f" sig_variadic)))) as Hnd
    by decide_by_computation.
  split; [vm_compute; reflexivity|]. split; [exact Hnd|].
  eapply (properties_in_declaration_order Reference.py_str Reference.field_json_schema
            (def "f" sig_variadic) None (Some ∅) (Some ∅));
    [vm_compute; reflexivity | exact Hnd].
Defined.

Lemma variadic_never_a_property_witness :
  ∃ st w,
    ref_wrap None (Some ∅) (Some ∅) (def "f" sig_variadic) = (st, Ok w) ∧
    NoDup (dict_keys (parameters (def (E:=void1) "f" sig_variadic))) ∧
    parameters (def (E:=void1) "f" sig_variadic) !! 3
    = Some ("kwargs", mkParameter VAR_KEYWORD None AnnEmpty) ∧
    is_var (mkParameter VAR_KEYWORD None AnnEmpty) = true ∧
    ∃ keys, schema_properties (gpt_parameters (gpt_func w)) = Some keys ∧ "kwargs" ∉ keys.
Proof.
  eexists _, _.
  assert (NoDup (dict_keys (parameters (def (E:=void1) "f" sig_variadic)))) as Hnd
    by decide_by_computation.
  split; [vm_compute; reflexivity|]. split; [exact Hnd|].
  split; [reflexivity|]. split; [reflexivity|].
  eapply (variadic_never_a_property Reference.py_str Reference.field_json_schema
            (def "f" sig_variadic) None (Some ∅) (Some ∅) _ _ 3 "kwargs");
    [vm_compute; reflexivity | exact Hnd | reflexivity | reflexivity].
Defined.

Lemma field_info_overrides_default_witness :
  ∃ st w,
    ref_wrap None (Some ∅) (Some ∅) (def "f" sig_field_info) = (st, Ok w) ∧
    NoDup (dict_keys (parameters (def (E:=void1) "f" sig_field_info))) ∧
    parameters (def (E:=void1) "f" sig_field_info) !! 0
    = Some ("n", positional (Some (PyInt 7))
                   (AnnFieldInfo (PyInt 5) (PyStr "count") (AnnClass "int"))) ∧
    ∃ props js,
      dict_get (gpt_parameters (gpt_func w)) "properties" = Some (PyDict props) ∧
      dict_get props "n" = Some js ∧
      Reference.field_json_schema "n" (AnnClass "int") (Field (PyInt 5) (PyStr "count"))
      = Ok js.
Proof.
  eexists _, _.
  assert (NoDup (dict_keys (parameters (def (E:=void1) "f" sig_field_info)))) as Hnd
    by decide_by_computation.
  split; [vm_compute; reflexivity|]. split; [exact Hnd|]. split; [reflexivity|].
  eapply (field_info_overrides_default Reference.py_str Reference.field_json_schema
            (def "f" sig_field_info) None (Some ∅) (Some ∅) _ _ 0 "n");
    [vm_compute; reflexivity | exact Hnd | reflexivity | reflexivity | reflexivity].
Defined.

Lemma annotated_gives_description_witness :
  ∃ st w,
    ref_wrap None (Some ∅) (Some ∅) (def "f" sig_annotated) = (st, Ok w) ∧
    NoDup (dict_keys (parameters (def (E:=void1) "f" sig_annotated))) ∧
    parameters (def (E:=void1) "f" sig_annotated) !! 1
    = Some ("level", positional None
                       (AnnAnnotated Level [PyTuple [PyStr "how much"; PyInt 1]])) ∧
    ∃ props js desc,
      dict_get (gpt_parameters (gpt_func w)) "properties" = Some (PyDict props) ∧
      dict_get props "level" = Some js ∧
      metadata_description Reference.py_str (PyTuple [PyStr "how much"; PyInt 1])
      = Some desc ∧
      Reference.field_json_schema "level" (enum_to_literal Level)
        (Field (default PyEllipsis None) desc) = Ok js.
Proof.
  eexists _, _.
  assert (NoDup (dict_keys (parameters (def (E:=void1) "f" sig_annotated)))) as Hnd
    by decide_by_computation.
  split; [vm_compute; reflexivity|]. split; [exact Hnd|]. split; [reflexivity|].
  eapply (annotated_gives_description Reference.py_str Reference.field_json_schema
            (def "f" sig_annotated) None (Some ∅) (Some ∅) _ _ 1 "level"
            (positional None (AnnAnnotated Level [PyTuple [PyStr "how much"; PyInt 1]])));
    [vm_compute; reflexivity | exact Hnd | reflexivity | reflexivity | reflexivity].
Defined.

Lemma include_only_grows_witness :
  ∃ st r,
    ref_wrap None (Some {["b"]}) (Some ∅) (def "f" sig_int_a_b1) = (st, r) ∧
    ∃ inc', st = Some inc' ∧ {["b"]} ⊆ inc' ∧
      ∀ x, x ∈ inc' → x ∉ ({["b"]} : gset string) →
           x ∈ dict_keys (analyzed 0 (parameters (def (E:=void1) "f" sig_int_a_b1)))
           ∧ x ∉ default (∅ : gset string) (Some ∅).
Proof.
  eexists _, _. split; [vm_compute; reflexivity|].
  eapply (include_only_grows Reference.py_str Reference.field_json_schema
            (def (E:=void1) "f" sig_int_a_b1) None (Some {["b"]}) (Some ∅)).
  vm_compute. reflexivity.
Defined.

Lemma shared_include_accumulates_witness :
  ∃ st1 w1 st2 w2,
    ref_wrap None (Some ∅) (Some ∅) (def "f" sig_int_a) = (st1, Ok w1) ∧
    ref_wrap None st1 (Some ∅) (def "g" sig_int_a_b1) = (st2, Ok w2) ∧
    in_required "a" (gpt_parameters (gpt_func w1)) ∧
    ("a" ∈ dict_keys (parameters (def (E:=void1) "g" sig_int_a_b1)) ∧
     in_required "a" (gpt_parameters (gpt_func w2))).
Proof.
  eexists _, _, _, _.
  split; [vm_compute; reflexivity|]. split; [vm_compute; reflexivity|].
  assert (in_required "a"
            (gpt_parameters
               (PyDict [("name", PyStr "f"); ("description", PyStr "f");
                        ("parameters",
                         PyDict [("properties",
                                  PyDict [("a", PyDict [("title", PyStr "A");
                                                        ("type", PyStr "integer")])]);
                                 ("required", PySet {["a"]});
                                 ("type", PyStr "object")])]))) as Hreq.
  { unfold in_required. simpl. decide_by_computation. }
  split; [exact Hreq|].
  eapply (shared_include_accumulates Reference.py_str Reference.field_json_schema
            (def "f" sig_int_a) (def "g" sig_int_a_b1) None None (Some ∅) (Some ∅) (Some ∅));
    [vm_compute; reflexivity | vm_compute; reflexivity | exact Hreq].
Defined.

Lemma schema_name_and_description_witness :
  ∃ st w,
    ref_wrap (Some "") (Some ∅) (Some ∅) (documented "add" "Adds one." sig_int_a1)
    = (st, Ok w) ∧
    ∃ doc,
      gpt_func w = PyDict [("name", PyStr (__name__ (documented (E:=void1) "add" "Adds one." sig_int_a1)));
                           ("description", PyStr doc);
                           ("parameters", PyDict (gpt_parameters (gpt_func w)))] ∧
      (∀ d, Some "" = Some d → d ≠ "" → doc = d) ∧
      (Some "" = None ∨ Some "" = Some "" →
       (∀ d, __doc__ (documented (E:=void1) "add" "Adds one." sig_int_a1) = Some d →
             d ≠ "" → doc = d) ∧
       (__doc__ (documented (E:=void1) "add" "Adds one." sig_int_a1) = None
        ∨ __doc__ (documented (E:=void1) "add" "Adds one." sig_int_a1) = Some "" →
        doc = __name__ (documented (E:=void1) "add" "Adds one." sig_int_a1))).
Proof.
  eexists _, _. split; [vm_compute; reflexivity|].
  eapply (schema_name_and_description Reference.py_str Reference.field_json_schema
            (documented "add" "Adds one." sig_int_a1) (Some "") (Some ∅) (Some ∅)).
  vm_compute. reflexivity.
Defined.

Lemma exclude_none_raises_witness :
  set_Forall (λ each, each ∈ dict_keys (parameters (def (E:=void1) "f" sig_int_a_b1)))
    ({["b"]} : gset string) ∧
  analyzed 0 (parameters (def (E:=void1) "f" sig_int_a_b1))
  = ([] ++ ("a", positional None (AnnClass "int"))
        :: [("b", positional (Some (PyInt 1)) (AnnClass "int"))])%list ∧
  has_default (positional None (AnnClass "int")) = false ∧
  ("a" ∉ ({["b"]} : gset string)) ∧
  forallb (λ q : string * PyParameter, is_ok (emit Reference.py_str q.2)) [] = true ∧
  ref_wrap None (Some {["b"]}) None (def "f" sig_int_a_b1) = (Some {["b"]}, Raise TypeError).
Proof.
  assert (set_Forall (λ each, each ∈ dict_keys (parameters (def (E:=void1) "f" sig_int_a_b1)))
            ({["b"]} : gset string)) as H1 by decide_by_computation.
  assert ("a" ∉ ({["b"]} : gset string)) as H2 by decide_by_computation.
  split_and!; [exact H1 | reflexivity | reflexivity | exact H2 | reflexivity |].
  exact (exclude_none_raises Reference.py_str Reference.field_json_schema
           (def "f" sig_int_a_b1) None {["b"]} [] "a" (positional None (AnnClass "int"))
           [("b", positional (Some (PyInt 1)) (AnnClass "int"))]
           H1 eq_refl eq_refl H2 eq_refl).
Defined.

Lemma wrapper_forwards_witness :
  ∃ st w,
    ref_wrap None (Some ∅) (Some ∅) (async_def "f" sig_int_a) = (st, Ok w) ∧
    (func w = async_def "f" sig_int_a ∧
     ("self" ∈ dict_keys [("a", PyInt 3)] →
      wrapper_call w [] [("a", PyInt 3)] = Raise TypeError) ∧
     ("self" ∉ dict_keys [("a", PyInt 3)] →
      (iscoroutinefunction (async_def (E:=void1) "f" sig_int_a) = false →
       wrapper_call w [] [("a", PyInt 3)] = call (async_def "f" sig_int_a) [] [("a", PyInt 3)]) ∧
      (iscoroutinefunction (async_def (E:=void1) "f" sig_int_a) = true →
       ∃ c, wrapper_call w [] [("a", PyInt 3)] = Ok (Coroutine c) ∧
            c ≅ await_call (call (async_def "f" sig_int_a) [] [("a", PyInt 3)])))).
Proof.
  eexists _, _. split; [vm_compute; reflexivity|].
  eapply (wrapper_forwards Reference.py_str Reference.field_json_schema
            (async_def "f" sig_int_a) None (Some ∅) (Some ∅)).
  vm_compute. reflexivity.
Defined.

Lemma receiver_skip_witness :
  ∃ st w,
    ref_wrap None (Some ∅) (Some ∅) (def "f" sig_self_a) = (st, Ok w) ∧
    NoDup (dict_keys (parameters (def (E:=void1) "f" sig_self_a))) ∧
    ∃ keys, schema_properties (gpt_parameters (gpt_func w)) = Some keys ∧
      ∀ i name p, parameters (def (E:=void1) "f" sig_self_a) !! i = Some (name, p) →
        (name ∈ keys ↔
         is_var p = false ∧
         ¬ (i = 0 ∧ (name = "self" ∨ name = "cls") ∧
            (p_annotation p = AnnEmpty ∨ ∃ c, p_annotation p = AnnClass c))).
Proof.
  eexists _, _.
  assert (NoDup (dict_keys (parameters (def (E:=void1) "f" sig_self_a)))) as Hnd
    by decide_by_computation.
  split; [vm_compute; reflexivity|]. split; [exact Hnd|].
  eapply (receiver_skip Reference.py_str Reference.field_json_schema
            (def "f" sig_self_a) None (Some ∅) (Some ∅));
    [vm_compute; reflexivity | exact Hnd].
Defined.

Lemma default_config_raises_witness :
  analyzed 0 (parameters (def (E:=void1) "f" sig_a_b1))
  = ([] ++ ("a", positional None AnnEmpty)
        :: [("b", positional (Some (PyInt 1)) AnnEmpty)])%list ∧
  has_default (positional None AnnEmpty) = false ∧
  forallb (λ q : string * PyParameter, is_ok (emit Reference.py_str q.2)) [] = true ∧
  ref_wrap None None None (def "f" sig_a_b1) = (None, Raise TypeError).
Proof.
  split_and!; [reflexivity | reflexivity | reflexivity |].
  exact (default_config_raises Reference.py_str Reference.field_json_schema
           (def "f" sig_a_b1) None [] "a" (positional None AnnEmpty)
           [("b", positional (Some (PyInt 1)) AnnEmpty)] eq_refl eq_refl eq_refl).
Defined.

Lemma annotated_unpack_failure_raises_witness :
  set_Forall (λ each, each ∈ dict_keys (parameters (def (E:=void1) "f" sig_two_metadata)))
    (∅ : gset string) ∧
  ¬ overlap (Some ∅) (Some ∅) ∧
  analyzed 0 (parameters (def (E:=void1) "f" sig_two_metadata))
  = ([] ++ ("a", positional (Some (PyInt 1))
                   (AnnAnnotated (AnnClass "int") [PyStr "x"; PyStr "y"]))
        :: [("b", mkParameter KEYWORD_ONLY None AnnEmpty)])%list ∧
  forallb (λ q : string * PyParameter, is_ok (emit Reference.py_str q.2)) [] = true ∧
  p_annotation (positional (Some (PyInt 1))
                  (AnnAnnotated (AnnClass "int") [PyStr "x"; PyStr "y"]))
  = AnnAnnotated (AnnClass "int") [PyStr "x"; PyStr "y"] ∧
  (length [PyStr "x"; PyStr "y"] ≠ 1 →
   (ref_wrap None (Some ∅) (Some ∅) (def "f" sig_two_metadata)).2 = Raise ValueError) ∧
  ([PyStr "x"; PyStr "y"] = [PyTuple []] →
   (ref_wrap None (Some ∅) (Some ∅) (def "f" sig_two_metadata)).2 = Raise IndexError).
Proof.
  assert (set_Forall
            (λ each, each ∈ dict_keys (parameters (def (E:=void1) "f" sig_two_metadata)))
            (∅ : gset string)) as H1 by decide_by_computation.
  assert (¬ overlap (Some ∅) (Some ∅)) as H2 by decide_by_computation.
  split; [exact H1|]. split; [exact H2|].
  split; [reflexivity|]. split; [reflexivity|]. split; [reflexivity|].
  exact (annotated_unpack_failure_raises Reference.py_str Reference.field_json_schema
           (def "f" sig_two_metadata) None ∅ ∅ []
           "a" (positional (Some (PyInt 1))
                  (AnnAnnotated (AnnClass "int") [PyStr "x"; PyStr "y"]))
           [("b", mkParameter KEYWORD_ONLY None AnnEmpty)]
           (AnnClass "int") [PyStr "x"; PyStr "y"] H1 H2 eq_refl eq_refl eq_refl).
Defined.
